(** * easy_discord_slash: the [CommandCreator] class of [slash.py]

    A shallow embedding of [src/slash.py] and the properties of its
    registry, invocation wrappers, error policy and help generator.

    Python objects are embedded as follows.
    - Dictionaries keyed by strings or by hashable objects are [gmap]s;
      the ordered dictionary [bound.arguments] and the keyword arguments of
      a call are association lists, since their order is observable.
    - Exceptions are values of [PyExc]; a computation that can raise
      returns an [Outcome].
    - Coroutines ([async def]) are state transformers over the state of the
      chat platform ([World]); [await] is sequencing.
    - discord.py itself is not part of the repository: its registration
      surfaces and reply primitives are the fields of the class [Discord]. *)

From stdpp Require Import base option list strings gmap pretty.

Open Scope string_scope.

(** ** Python values *)

(** Classes that occur as parameter annotations and as keys of the converter
    table.  [TClass m n] is a class named [n] defined in module [m]. *)
Inductive PyType : Type :=
  | TInt
  | TStr
  | TFloat
  | TBool
  | TClass (module name : string).

(** [t.__name__] *)
Definition type_name (t : PyType) : string :=
  match t with
  | TInt => "int"
  | TStr => "str"
  | TFloat => "float"
  | TBool => "bool"
  | TClass _ n => n
  end.

(** [repr(t)] *)
Definition type_repr (t : PyType) : string :=
  match t with
  | TClass m n => "<class '" +:+ m +:+ "." +:+ n +:+ "'>"
  | _ => "<class '" +:+ type_name t +:+ "'>"
  end.

(** Hashable objects that the source uses as dictionary keys of
    [self.converters]: a class, a string (a parameter name), or the sentinel
    class [inspect.Parameter.empty]. *)
Inductive Hashable : Type :=
  | HEmpty
  | HType (t : PyType)
  | HStr (s : string).

Definition key_repr (k : Hashable) : string :=
  match k with
  | HEmpty => "<class 'inspect._empty'>"
  | HType t => type_repr t
  | HStr s => "'" +:+ s +:+ "'"
  end.

#[global] Instance PyType_eq_dec : EqDecision PyType.
Proof. solve_decision. Defined.

#[global] Instance Hashable_eq_dec : EqDecision Hashable.
Proof. solve_decision. Defined.

Definition PyType_code (t : PyType) : nat + string * string :=
  match t with
  | TInt => inl 0
  | TStr => inl 1
  | TFloat => inl 2
  | TBool => inl 3
  | TClass m n => inr (m, n)
  end.

Definition PyType_decode (c : nat + string * string) : PyType :=
  match c with
  | inl 0 => TInt
  | inl 1 => TStr
  | inl 2 => TFloat
  | inl _ => TBool
  | inr (m, n) => TClass m n
  end.

#[global] Instance PyType_countable : Countable PyType.
Proof.
  apply (inj_countable' PyType_code PyType_decode).
  intros []; reflexivity.
Defined.

Definition Hashable_code (k : Hashable) : unit + (PyType + string) :=
  match k with
  | HEmpty => inl tt
  | HType t => inr (inl t)
  | HStr s => inr (inr s)
  end.

Definition Hashable_decode (c : unit + (PyType + string)) : Hashable :=
  match c with
  | inl _ => HEmpty
  | inr (inl t) => HType t
  | inr (inr s) => HStr s
  end.

#[global] Instance Hashable_countable : Countable Hashable.
Proof.
  apply (inj_countable' Hashable_code Hashable_decode).
  intros []; reflexivity.
Defined.

(** The object a command is invoked on: a [discord.Interaction] (slash
    commands) or a [commands.Context] (message commands). *)
Inductive Ctx : Type :=
  | Interaction (id : N)
  | Context (id : N).

#[global] Instance Ctx_eq_dec : EqDecision Ctx.
Proof. solve_decision. Defined.

(** Argument values. *)
Inductive PyVal : Type :=
  | VNone
  | VBool (b : bool)
  | VInt (n : Z)
  | VStr (s : string)
  | VCtx (c : Ctx).

#[global] Instance PyVal_eq_dec : EqDecision PyVal.
Proof. solve_decision. Defined.

(** [str(v)], which is what an f-string field [{v}] prints.  The text printed
    for a context object contains a memory address and is left symbolic. *)
Definition py_str (v : PyVal) : string :=
  match v with
  | VNone => "None"
  | VBool true => "True"
  | VBool false => "False"
  | VInt n => pretty n
  | VStr s => s
  | VCtx (Interaction _) => "<discord.interactions.Interaction object>"
  | VCtx (Context _) => "<discord.ext.commands.context.Context object>"
  end.

(** ** Exceptions *)

Inductive ExcClass : Type :=
  | TypeError
  | ValueError
  | KeyError
  | AttributeError
  | RuntimeError
  | HTTPException
  | InteractionResponded
  | UserError (name : string)
  | CancelledError
  | KeyboardInterrupt
  | SystemExit.

(** [isinstance(e, Exception)].  Task cancellation, the keyboard interrupt
    and interpreter exit derive from [BaseException] only. *)
Definition is_Exception (c : ExcClass) : bool :=
  match c with
  | CancelledError | KeyboardInterrupt | SystemExit => false
  | _ => true
  end.

(** An exception object: its class and the text [str(e)]. *)
Record PyExc : Type := mkExc { exc_class : ExcClass; exc_str : string }.

#[global] Instance ExcClass_eq_dec : EqDecision ExcClass.
Proof. solve_decision. Defined.

#[global] Instance PyExc_eq_dec : EqDecision PyExc.
Proof. solve_decision. Defined.

Inductive Outcome (A : Type) : Type :=
  | Ok (a : A)
  | Raise (e : PyExc).

Arguments Ok {A} a.
Arguments Raise {A} e.

Definition obind {A B} (o : Outcome A) (k : A -> Outcome B) : Outcome B :=
  match o with
  | Ok a => k a
  | Raise e => Raise e
  end.

(** ** Strings *)

(** The one-character string ["\n"]: character 10, least significant bit
    first. *)
Definition NL : string :=
  String (Ascii.Ascii false true false true false false false false) "".

(** [sep.join(l)] *)
Fixpoint join (sep : string) (l : list string) : string :=
  match l with
  | [] => ""
  | [s] => s
  | s :: rest => s +:+ sep +:+ join sep rest
  end.

(** ** Ordered dictionaries with string keys *)

Module Dict.

Definition t : Type := list (string * PyVal).

(** [d.get(k)] *)
Fixpoint get (d : t) (k : string) : option PyVal :=
  match d with
  | [] => None
  | (k', v) :: rest => if decide (k' = k) then Some v else get rest k
  end.

(** [k in d] *)
Definition mem (d : t) (k : string) : bool := bool_decide (is_Some (get d k)).

(** [d[k] = v]: an existing key keeps its position, a new one goes last. *)
Fixpoint set (d : t) (k : string) (v : PyVal) : t :=
  match d with
  | [] => [(k, v)]
  | (k', v') :: rest =>
      if decide (k' = k) then (k, v) :: rest else (k', v') :: set rest k v
  end.

(** [del d[k]] *)
Fixpoint del (d : t) (k : string) : t :=
  match d with
  | [] => []
  | (k', v') :: rest =>
      if decide (k' = k) then del rest k else (k', v') :: del rest k
  end.

(** [d[k]], raising [KeyError(k)] when the key is absent. *)
Definition getitem (d : t) (k : string) : Outcome PyVal :=
  match get d k with
  | Some v => Ok v
  | None => Raise (mkExc KeyError (key_repr (HStr k)))
  end.

End Dict.

(** ** Signatures ([inspect.signature]) *)

(** One [inspect.Parameter] of kind POSITIONAL_OR_KEYWORD, the kind every
    parameter of [def f(ctx, a: int, b: int = 0)] has.  [None] stands for
    [inspect.Parameter.empty] in both optional fields.

    Command functions are embedded with parameters of this kind only: a
    signature that uses [/], a bare star, a starred or a double-starred
    parameter has no counterpart here, and every statement below about
    binding and about the arguments of the call is a statement about
    functions declared with ordinary parameters. *)
Record Param : Type := mkParam {
  p_name : string;
  p_annotation : option PyType;
  p_default : option PyVal;
}.

(** The dictionary key that [param.annotation] is. *)
Definition annotation_key (p : Param) : Hashable :=
  match p_annotation p with
  | Some t => HType t
  | None => HEmpty
  end.

Definition type_error (msg : string) : PyExc := mkExc TypeError msg.

(** The keyword phase of [Signature.bind]: each remaining parameter takes its
    value from [kwargs] (and removes it there), is skipped when it has a
    default, and is otherwise missing.  Returns the bindings made and the
    keyword arguments left over. *)
Fixpoint bind_keywords (params : list Param) (kwargs : Dict.t)
  : Outcome (Dict.t * Dict.t) :=
  match params with
  | [] => Ok ([], kwargs)
  | p :: ps =>
      match Dict.get kwargs (p_name p) with
      | Some v =>
          obind (bind_keywords ps (Dict.del kwargs (p_name p)))
            (fun '(bound, extra) => Ok ((p_name p, v) :: bound, extra))
      | None =>
          match p_default p with
          | None =>
              Raise (type_error
                ("missing a required argument: '" +:+ p_name p +:+ "'"))
          | Some _ => bind_keywords ps kwargs
          end
      end
  end.

(** [sig.bind] applied to positional arguments [args] and keyword arguments
    [kwargs], for a signature of positional-or-keyword parameters: [bound.arguments], in parameter order, or the [TypeError]
    Python raises. *)
Fixpoint sig_bind (params : list Param) (args : list PyVal)
    (kwargs : Dict.t) {struct args} : Outcome Dict.t :=
  match args with
  | [] =>
      obind (bind_keywords params kwargs)
        (fun '(bound, extra) =>
           match extra with
           | [] => Ok bound
           | (k, _) :: _ =>
               Raise (type_error
                 ("got an unexpected keyword argument '" +:+ k +:+ "'"))
           end)
  | a :: args' =>
      match params with
      | [] => Raise (type_error "too many positional arguments")
      | p :: ps =>
          if Dict.mem kwargs (p_name p)
          then Raise (type_error
                 ("multiple values for argument '" +:+ p_name p +:+ "'"))
          else obind (sig_bind ps args' kwargs)
                 (fun bound => Ok ((p_name p, a) :: bound))
      end
  end.

(** [bound.apply_defaults()] *)
Fixpoint apply_defaults (params : list Param) (arguments : Dict.t)
  : Dict.t :=
  match params with
  | [] => []
  | p :: ps =>
      match Dict.get arguments (p_name p), p_default p with
      | Some v, _ => (p_name p, v) :: apply_defaults ps arguments
      | None, Some d => (p_name p, d) :: apply_defaults ps arguments
      | None, None => apply_defaults ps arguments
      end
  end.

(** [bound.args]: the values of the leading parameters that are bound. *)
Fixpoint bound_args (params : list Param) (arguments : Dict.t)
  : list PyVal :=
  match params with
  | [] => []
  | p :: ps =>
      match Dict.get arguments (p_name p) with
      | Some v => v :: bound_args ps arguments
      | None => []
      end
  end.

(** [bound.kwargs]: the bound parameters after the first unbound one. *)
Fixpoint bound_kwargs (started : bool) (params : list Param)
    (arguments : Dict.t) : Dict.t :=
  match params with
  | [] => []
  | p :: ps =>
      match Dict.get arguments (p_name p) with
      | Some v =>
          if started
          then (p_name p, v) :: bound_kwargs true ps arguments
          else bound_kwargs false ps arguments
      | None => bound_kwargs true ps arguments
      end
  end.

(** ** The external framework *)

(** What the source consumes from discord.py.  None of it is defined in the
    repository, so it is kept abstract:
    - [World] is the state of the chat platform that replies act on;
    - [is_done i] is [interaction.response.is_done()], [send_message i s] is
      [await interaction.response.send_message(s)] and [send c s] is
      [await ctx.send(s)];
    - [Bot] and [Tree] are the states of [commands.Bot] and of
      [app_commands.CommandTree]; [tree_command name description] and
      [bot_command name aliases description] are the two registration
      decorators applied to a wrapper, which the framework may reject by
      raising.  Every wrapper handed to them has the same signature, so the
      wrapper itself is not an argument. *)
Class Discord : Type := {
  World : Type;
  is_done : N -> World -> bool;
  send_message : N -> string -> World -> Outcome unit * World;
  send : N -> string -> World -> Outcome unit * World;
  Bot : Type;
  Tree : Type;
  CommandTree : Bot -> Tree;
  tree_command : string -> string -> Tree -> Outcome unit * Tree;
  bot_command :
    string -> list string -> option string -> Bot -> Outcome unit * Bot;
}.

(** The value of the ["type"] entry of a command record. *)
Inductive CmdType : Type :=
  | Slash
  | Message.

(** Truthiness of a [description] argument: [None] and [""] are false. *)
Definition truthy (description : option string) : bool :=
  match description with
  | None => false
  | Some s => negb (bool_decide (s = ""))
  end.

(** The names [generate_help] never lists. *)
Definition skipped_names : list string := ["self"; "ctx"; "interaction"].

Section CommandCreator.

Context `{D : Discord}.

(** *** Coroutines *)

Definition IO (A : Type) : Type := World -> Outcome A * World.

Definition ret {A} (a : A) : IO A := fun w => (Ok a, w).

Definition lift {A} (o : Outcome A) : IO A := fun w => (o, w).

Definition bind {A B} (m : IO A) (k : A -> IO B) : IO B :=
  fun w =>
    match m w with
    | (Ok a, w') => k a w'
    | (Raise e, w') => (Raise e, w')
    end.

Notation "x <~ m ;; k" := (bind m (fun x => k))
  (at level 100, m at level 99, right associativity, only parsing).

(** [try: body except Exception as e: handler(e)] *)
Definition try_except {A} (body : IO A) (handler : PyExc -> IO A) : IO A :=
  fun w =>
    match body w with
    | (Ok a, w') => (Ok a, w')
    | (Raise e, w') =>
        if is_Exception (exc_class e) then handler e w' else (Raise e, w')
    end.

(** *** The objects a [CommandCreator] holds *)

Definition Converter : Type := PyVal -> IO PyVal.

Definition ErrHandler : Type := PyExc -> Ctx -> IO unit.

(** A command function: its signature and what awaiting a call of it with
    positional and keyword arguments does. *)
Record Func : Type := mkFunc {
  f_params : list Param;
  f_body : list PyVal -> Dict.t -> IO unit;
}.

(** The dictionary stored in [self.commands].  [cmd_aliases] is [None] when
    the dictionary has no ["aliases"] key; [cmd_description] is [None] when
    the ["description"] entry is Python's [None]. *)
Record CommandData : Type := mkCommand {
  cmd_type : CmdType;
  cmd_aliases : option (list string);
  cmd_description : option string;
  cmd_func : Func;
}.

Record CommandCreator : Type := mkCreator {
  bot : Bot;
  tree : Tree;
  commands : gmap string CommandData;
  converters : gmap Hashable Converter;
  error_handler : option ErrHandler;
}.

Definition __init__ (b : Bot) : CommandCreator :=
  {| bot := b;
     tree := CommandTree b;
     commands := ∅;
     converters := ∅;
     error_handler := None |}.

Definition register_converter (type_ : Hashable) (converter : Converter)
    (self : CommandCreator) : CommandCreator :=
  {| bot := bot self;
     tree := tree self;
     commands := commands self;
     converters := <[type_ := converter]> (converters self);
     error_handler := error_handler self |}.

Definition set_error_handler (handler : ErrHandler) (self : CommandCreator)
  : CommandCreator :=
  {| bot := bot self;
     tree := tree self;
     commands := commands self;
     converters := converters self;
     error_handler := Some handler |}.

(** *** The error policy *)

Definition error_text (error : PyExc) : string := "Error: " +:+ exc_str error.

Definition _handle_error (self : CommandCreator) (error : PyExc) (ctx : Ctx)
  : IO unit :=
  match error_handler self with
  | Some handler => handler error ctx
  | None =>
      match ctx with
      | Interaction i =>
          fun w =>
            if negb (is_done i w)
            then send_message i (error_text error) w
            else (Ok tt, w)
      | Context c => send c (error_text error)
      end
  end.

(** *** The invocation wrappers *)

(** [self.converters[k]] *)
Definition converter_getitem (self : CommandCreator) (k : Hashable)
  : Outcome Converter :=
  match converters self !! k with
  | Some conv => Ok conv
  | None => Raise (mkExc KeyError (key_repr k))
  end.

(** The loop over [sig.parameters.items()]: the membership test is on the
    parameter's name, the converter is fetched under its annotation. *)
Fixpoint apply_converters (self : CommandCreator) (params : list Param)
    (arguments : Dict.t) : IO Dict.t :=
  match params with
  | [] => ret arguments
  | param :: rest =>
      match converters self !! HStr (p_name param) with
      | Some _ =>
          value <~ lift (Dict.getitem arguments (p_name param)) ;;
          conv <~ lift (converter_getitem self (annotation_key param)) ;;
          value' <~ conv value ;;
          apply_converters self rest (Dict.set arguments (p_name param) value')
      | None => apply_converters self rest arguments
      end
  end.

(** The body of the [try] statement, which both wrappers share word for
    word: bind, apply defaults, convert, await the command function. *)
Definition try_body (self : CommandCreator) (func : Func) (ctx : Ctx)
    (args : list PyVal) (kwargs : Dict.t) : IO unit :=
  let sig := f_params func in
  bound <~ lift (sig_bind sig (VCtx ctx :: args) kwargs) ;;
  arguments <~ apply_converters self sig (apply_defaults sig bound) ;;
  f_body func (bound_args sig arguments) (bound_kwargs false sig arguments).

(** The body of [wrapper] in [slash_command.decorator], from its [try] on:
    [interaction], [args] and [kwargs] are its local variables, as the call
    has bound them (see [slash_call]).  [self] is read when the wrapper
    runs, not when it is created. *)
Definition slash_wrapper (func : Func) (self : CommandCreator)
    (interaction : Ctx) (args : list PyVal) (kwargs : Dict.t) : IO unit :=
  try_except (try_body self func interaction args kwargs)
    (fun e => _handle_error self e interaction).

(** The body of [wrapper] in [message_command.decorator], over its local
    variables [ctx], [args] and [kwargs] (see [message_call]). *)
Definition message_wrapper (func : Func) (self : CommandCreator)
    (ctx : Ctx) (args : list PyVal) (kwargs : Dict.t) : IO unit :=
  try_except (try_body self func ctx args kwargs)
    (fun e => _handle_error self e ctx).

Definition Wrapper : Type :=
  CommandCreator -> Ctx -> list PyVal -> Dict.t -> IO unit.

(** The [TypeError] of a call that gives a parameter both by position and
    by keyword; [qualname] is the qualified name of the function called, as
    Python prints it from version 3.10 on. *)
Definition multiple_values (qualname param : string) : PyExc :=
  type_error
    (qualname +:+ "() got multiple values for argument '" +:+ param +:+ "'").

Definition slash_wrapper_name : string :=
  "CommandCreator.slash_command.<locals>.decorator.<locals>.wrapper".

Definition message_wrapper_name : string :=
  "CommandCreator.message_command.<locals>.decorator.<locals>.wrapper".

(** A call of the slash wrapper with the interaction first, then positional
    arguments, then keywords.  Python binds the wrapper's own parameters,
    [interaction], the starred [args] and the double-starred [kwargs],
    before the body starts: a keyword named [interaction] meets the
    positional argument and the call raises, outside the [try]; every other
    keyword goes to [kwargs]. *)
Definition slash_call (func : Func) (self : CommandCreator)
    (interaction : Ctx) (args : list PyVal) (keywords : Dict.t) : IO unit :=
  if Dict.mem keywords "interaction"
  then fun w => (Raise (multiple_values slash_wrapper_name "interaction"), w)
  else slash_wrapper func self interaction args keywords.

(** The same call of the message wrapper, whose first parameter is named
    [ctx]. *)
Definition message_call (func : Func) (self : CommandCreator)
    (ctx : Ctx) (args : list PyVal) (keywords : Dict.t) : IO unit :=
  if Dict.mem keywords "ctx"
  then fun w => (Raise (multiple_values message_wrapper_name "ctx"), w)
  else message_wrapper func self ctx args keywords.

(** *** Registration *)

(** A step of set-up code: it may raise, and it leaves a [CommandCreator]. *)
Definition Setup (A : Type) : Type :=
  CommandCreator -> Outcome A * CommandCreator.

Definition slash_decorator (name description : string) (func : Func)
  : Setup Wrapper :=
  fun self =>
    match tree_command name description (tree self) with
    | (Raise e, tree') =>
        (Raise e,
         {| bot := bot self; tree := tree'; commands := commands self;
            converters := converters self;
            error_handler := error_handler self |})
    | (Ok _, tree') =>
        (Ok (slash_wrapper func),
         {| bot := bot self; tree := tree';
            commands :=
              <[name := mkCommand Slash None (Some description) func]>
                (commands self);
            converters := converters self;
            error_handler := error_handler self |})
    end.

(** [ValueError("Description is required for slash commands.")] *)
Definition description_required : PyExc :=
  mkExc ValueError "Description is required for slash commands.".

Definition slash_command (name : string) (description : option string)
  : Setup (Func -> Setup Wrapper) :=
  fun self =>
    match description with
    | Some d =>
        if truthy description
        then (Ok (slash_decorator name d), self)
        else (Raise description_required, self)
    | None => (Raise description_required, self)
    end.

(** [aliases or []] *)
Definition aliases_or_empty (aliases : option (list string)) : list string :=
  match aliases with
  | Some l => l
  | None => []
  end.

Definition message_decorator (name : string) (aliases : option (list string))
    (description : option string) (func : Func) : Setup Wrapper :=
  fun self =>
    match bot_command name (aliases_or_empty aliases) description
            (bot self) with
    | (Raise e, bot') =>
        (Raise e,
         {| bot := bot'; tree := tree self; commands := commands self;
            converters := converters self;
            error_handler := error_handler self |})
    | (Ok _, bot') =>
        (Ok (message_wrapper func),
         {| bot := bot'; tree := tree self;
            commands :=
              <[name := mkCommand Message (Some (aliases_or_empty aliases))
                          description func]>
                (commands self);
            converters := converters self;
            error_handler := error_handler self |})
    end.

Definition message_command (name : string) (aliases : option (list string))
    (description : option string) : Setup (Func -> Setup Wrapper) :=
  fun self => (Ok (message_decorator name aliases description), self).

(** Using a registration function as a decorator: call it, then apply what
    it returns to the command function. *)
Definition decorate (reg : Setup (Func -> Setup Wrapper)) (func : Func)
  : Setup Wrapper :=
  fun self =>
    match reg self with
    | (Ok decorator, self') => decorator func self'
    | (Raise e, self') => (Raise e, self')
    end.

(** *** Help *)

(** The three locals of the loop body, [param_type], [default_str] and
    [converter_note]. *)
Definition param_type (param : Param) : string :=
  match p_annotation param with
  | Some t => type_name t
  | None => "Any"
  end.

Definition default_str (param : Param) : string :=
  match p_default param with
  | None => "Required"
  | Some default => "Optional (default: " +:+ py_str default +:+ ")"
  end.

Definition converter_note (self : CommandCreator) (param : Param) : string :=
  match converters self !! annotation_key param with
  | Some _ => " (Custom converter available)"
  | None => ""
  end.

(** One entry of the argument list. *)
Definition param_line (self : CommandCreator) (param : Param) : string :=
  "- `" +:+ p_name param +:+ "`: " +:+ param_type param +:+
  " (" +:+ default_str param +:+ ")" +:+ converter_note self param.

Definition is_skipped (param : Param) : bool :=
  bool_decide (p_name param ∈ skipped_names).

Definition arguments_header : string := NL +:+ "Arguments:".

(** The entries appended for the type, description and aliases. *)
Definition type_lines (command_data : CommandData) : list string :=
  let description_line :=
    if truthy (cmd_description command_data)
    then ["Description: " +:+ default "" (cmd_description command_data)]
    else [] in
  match cmd_type command_data with
  | Slash => ["Type: Slash Command"] ++ description_line
  | Message =>
      ["Type: Message Command"] ++ description_line ++
      match cmd_aliases command_data with
      | Some (a :: l) => ["Aliases: " +:+ join ", " (a :: l)]
      | _ => []
      end
  end.

(** The entries appended for the parameters. *)
Definition argument_lines (self : CommandCreator) (params : list Param)
  : list string :=
  if bool_decide (1 < length params)
  then arguments_header ::
       map (param_line self) (filter (fun p => is_skipped p = false) params)
  else [].

(** The list [help_message] when [generate_help] returns. *)
Definition help_message (self : CommandCreator) (command_name : string)
    (command_data : CommandData) : list string :=
  ["**" +:+ command_name +:+ "**"] ++
  type_lines command_data ++
  argument_lines self (f_params (cmd_func command_data)).

Definition generate_help (self : CommandCreator) (command_name : string)
  : string :=
  match commands self !! command_name with
  | None => "Command not found."
  | Some command_data =>
      join NL (help_message self command_name command_data)
  end.

(** The parameter schema in the words of the specification: the declared
    signature without its leading context or interaction parameter. *)
Definition spec_parameter_schema (func : Func) : list Param :=
  tail (f_params func).

End CommandCreator.

(** ** A simulated platform *)

(** An instance of the framework interface on which the wrappers can be run:
    replies are appended to an outbox, an interaction can be answered once,
    and both registration surfaces accept every wrapper.  [calls] is a
    journal that test command functions write their arguments to. *)
Module Sim.

Record world : Type := mkWorld {
  responded : list N;
  outbox : list (Ctx * string);
  calls : list (list PyVal);
}.

Definition sim_is_done (i : N) (w : world) : bool :=
  bool_decide (i ∈ responded w).

Definition sim_send_message (i : N) (content : string) (w : world)
  : Outcome unit * world :=
  if sim_is_done i w
  then (Raise (mkExc InteractionResponded
          "This interaction has already been responded to before"), w)
  else (Ok tt,
        {| responded := i :: responded w;
           outbox := outbox w ++ [(Interaction i, content)];
           calls := calls w |}).

Definition sim_send (c : N) (content : string) (w : world)
  : Outcome unit * world :=
  (Ok tt,
   {| responded := responded w;
      outbox := outbox w ++ [(Context c, content)];
      calls := calls w |}).

Definition platform : Discord :=
  {| World := world;
     is_done := sim_is_done;
     send_message := sim_send_message;
     send := sim_send;
     Bot := list string;
     Tree := list string;
     CommandTree := fun _ => [];
     tree_command := fun name _ t => (Ok tt, name :: t);
     bot_command := fun name _ _ b => (Ok tt, name :: b) |}.

Definition empty_world : world :=
  {| responded := []; outbox := []; calls := [] |}.

(** A world in which interaction [i] has already been answered. *)
Definition answered (i : N) : world :=
  {| responded := [i]; outbox := [(Interaction i, "pong")]; calls := [] |}.

Definition creator : @CommandCreator platform := @__init__ platform [].

(** The signature [(ctx, a: int, b: int)]. *)
Definition ctx_a_b : list Param :=
  [ mkParam "ctx" None None;
    mkParam "a" (Some TInt) None;
    mkParam "b" (Some TInt) None ].

(** A command function of that signature that only journals the arguments
    it is called with. *)
Definition spy : @Func platform :=
  mkFunc (D := platform) ctx_a_b
    (fun args _ (w : world) =>
       (Ok tt,
        {| responded := responded w;
           outbox := outbox w;
           calls := calls w ++ [args] |})).

(** A converter that doubles an integer. *)
Definition double : @Converter platform :=
  fun v (w : world) =>
    match v with
    | VInt n => (Ok (VInt (2 * n)), w)
    | _ => (Raise (mkExc TypeError "an integer is required"), w)
    end.

Definition doubling_creator : @CommandCreator platform :=
  register_converter (HType TInt) double creator.

(** A command function that exits the interpreter, as [sys.exit()] does. *)
Definition quitter : @Func platform :=
  mkFunc (D := platform) [mkParam "ctx" None None]
    (fun _ _ (w : world) => (Raise (mkExc SystemExit ""), w)).

(** An error handler that answers the interaction itself. *)
Definition replying_handler : @ErrHandler platform :=
  fun error ctx (w : world) =>
    match ctx with
    | Interaction i => sim_send_message i ("Oops: " +:+ exc_str error) w
    | Context c => sim_send c ("Oops: " +:+ exc_str error) w
    end.

(** The signature [(ctx, command_name: str = None)] of the example's help
    command. *)
Definition help_params : list Param :=
  [ mkParam "ctx" None None;
    mkParam "command_name" (Some TStr) (Some VNone) ].

Definition help_func : @Func platform :=
  mkFunc (D := platform) help_params (fun _ _ (w : world) => (Ok tt, w)).

(** A command function that raises [ValueError("boom")]. *)
Definition raiser : @Func platform :=
  mkFunc (D := platform) [mkParam "ctx" None None]
    (fun _ _ (w : world) => (Raise (mkExc ValueError "boom"), w)).

(** An error handler that fails itself. *)
Definition failing_handler : @ErrHandler platform :=
  fun _ _ (w : world) => (Raise (mkExc RuntimeError "handler failed"), w).

Definition boom : PyExc := mkExc ValueError "boom".

(** The creator after
    [@message_command("add", aliases=["sum"], description="old")] has been
    applied to [spy]. *)
Definition with_sum : @CommandCreator platform :=
  snd (decorate (message_command "add" (Some ["sum"]) (Some "old")) spy
         doubling_creator).

(** ... and after [@slash_command("add", description="new")] has then been
    applied to [help_func]. *)
Definition with_sum_again : @CommandCreator platform :=
  snd (decorate (slash_command "add" (Some "new")) help_func with_sum).

(** The creator after [@message_command("ping", description="")]. *)
Definition with_ping : @CommandCreator platform :=
  snd (decorate (message_command "ping" None (Some "")) help_func creator).

End Sim.

(** ** A platform that refuses a name twice *)

(** A second instance of the framework interface: each registration surface
    keeps the names it was given and raises when it is given one again, the
    way discord.py refuses a command that is already registered.  Replies
    behave as on the simulated platform. *)
Module Strict.

Definition register (name : string) (registered : list string)
  : Outcome unit * list string :=
  if bool_decide (name ∈ registered)
  then (Raise (mkExc (UserError "CommandAlreadyRegistered")
          ("Command '" +:+ name +:+ "' already registered.")), registered)
  else (Ok tt, name :: registered).

Definition platform : Discord :=
  {| World := Sim.world;
     is_done := Sim.sim_is_done;
     send_message := Sim.sim_send_message;
     send := Sim.sim_send;
     Bot := list string;
     Tree := list string;
     CommandTree := fun _ => [];
     tree_command := fun name _ t => register name t;
     bot_command := fun name _ _ b => register name b |}.

Definition noop : @Func platform :=
  mkFunc (D := platform) [mkParam "interaction" None None]
    (fun _ _ (w : Sim.world) => (Ok tt, w)).

(** The creator after [@slash_command("add", description="Adds")]. *)
Definition with_add : @CommandCreator platform :=
  snd (decorate (slash_command "add" (Some "Adds")) noop
         (@__init__ platform [])).

End Strict.

(** ** More command functions for the simulated platform *)

Module Demo.

(** The signature [(ctx, name: str, greeting: str = "hello")]. *)
Definition greet_params : list Param :=
  [ mkParam "ctx" None None;
    mkParam "name" (Some TStr) None;
    mkParam "greeting" (Some TStr) (Some (VStr "hello")) ].

(** A command function of that signature that journals its arguments. *)
Definition greet : @Func Sim.platform :=
  mkFunc (D := Sim.platform) greet_params
    (fun args _ (w : Sim.world) =>
       (Ok tt,
        {| Sim.responded := Sim.responded w;
           Sim.outbox := Sim.outbox w;
           Sim.calls := Sim.calls w ++ [args] |})).

(** The creator after
    [@message_command("greet", aliases=["hi", "hey"])] has been applied to
    [greet], with a converter registered for [int]. *)
Definition with_greet : @CommandCreator Sim.platform :=
  snd (decorate (message_command "greet" (Some ["hi"; "hey"]) None) greet
         Sim.doubling_creator).

End Demo.

(** ** Notions used by the properties *)

(** What a parameter is bound to once defaults are applied: its entry in
    [bound.arguments], else its default. *)
Definition bound_value (bound : Dict.t) (p : Param) : option PyVal :=
  match Dict.get bound (p_name p) with
  | Some v => Some v
  | None => p_default p
  end.

(** A parameter declared with a default value. *)
Definition has_default (p : Param) : Prop := is_Some (p_default p).

Section Notions.

Context `{D : Discord}.

(** A converter table none of whose keys is a string: what
    [register_converter] builds when it is given classes, as its annotation
    [Type] asks. *)
Definition class_keyed (self : CommandCreator) : Prop :=
  forall s : string, converters self !! HStr s = None.

End Notions.

(** ** Properties *)

Section Properties.

Context `{D : Discord}.

Implicit Types (self : CommandCreator) (func : Func) (ctx : Ctx).
Implicit Types (error : PyExc) (w : World).

(** *** Help for unknown names *)

(** C8.  For every name that is not a key of [self.commands],
    [generate_help] returns exactly the string "Command not found.". *)
Theorem generate_help_unknown self (command_name : string) :
  commands self !! command_name = None ->
  generate_help self command_name = "Command not found.".
Proof.
  intros Habsent. unfold generate_help. by rewrite Habsent.
Qed.

(** *** Registration *)

Lemma truthy_false (description : option string) :
  truthy description = false -> description = None \/ description = Some "".
Proof.
  destruct description as [s|]; [|by left]. simpl.
  case_bool_decide; [subst; by right | discriminate].
Qed.

(** C3.  With an absent or empty description [slash_command] raises
    [ValueError] at once, before any decorator exists, and the creator,
    hence its command map, is the one it was called on.  Used as a
    decorator it therefore registers nothing. *)
Theorem slash_command_empty_description self (name : string)
    (description : option string) func :
  truthy description = false ->
  slash_command name description self = (Raise description_required, self)
  /\ decorate (slash_command name description) func self
     = (Raise description_required, self)
  /\ commands (snd (decorate (slash_command name description) func self))
     = commands self.
Proof.
  intros Hfalsy.
  assert (slash_command name description self
          = (Raise description_required, self)) as Hraise.
  { destruct (truthy_false _ Hfalsy) as [-> | ->]; reflexivity. }
  unfold decorate. rewrite Hraise. done.
Qed.

Lemma slash_decorate_ok self self' (name : string)
    (description : option string) func (wr : Wrapper) :
  decorate (slash_command name description) func self = (Ok wr, self') ->
  exists d, description = Some d /\ d <> ""
    /\ commands self'
       = <[name := mkCommand Slash None (Some d) func]> (commands self).
Proof.
  unfold decorate, slash_command.
  destruct description as [d|]; [|discriminate].
  simpl. case_bool_decide as Hd; simpl; [discriminate|].
  unfold slash_decorator.
  destruct (tree_command name d (tree self)) as [[[]|e] tree'];
    intros Heq; inversion Heq; subst; eauto.
Qed.

Lemma message_decorate_ok self self' (name : string)
    (aliases : option (list string)) (description : option string) func
    (wr : Wrapper) :
  decorate (message_command name aliases description) func self
  = (Ok wr, self') ->
  commands self'
  = <[name := mkCommand Message (Some (aliases_or_empty aliases))
                description func]> (commands self).
Proof.
  unfold decorate, message_command, message_decorator.
  destruct (bot_command name (aliases_or_empty aliases) description
              (bot self)) as [[[]|e] bot'];
    intros Heq; inversion Heq; subst; eauto.
Qed.

(** C4.  Registering under a name that is already a key stores exactly the
    record of the new registration under that name, whatever the old record
    was: a slash registration leaves a record without aliases and with the
    new description, a message registration one with the new aliases and
    description.  All other keys keep their records. *)
Theorem reregister_overwrites self self' (name : string) func (wr : Wrapper)
    (old : CommandData) :
  commands self !! name = Some old ->
  (forall description,
      decorate (slash_command name description) func self = (Ok wr, self') ->
      commands self' !! name = Some (mkCommand Slash None description func)
      /\ forall other, other <> name ->
           commands self' !! other = commands self !! other)
  /\
  (forall aliases description,
      decorate (message_command name aliases description) func self
      = (Ok wr, self') ->
      commands self' !! name
      = Some (mkCommand Message (Some (aliases_or_empty aliases))
                description func)
      /\ forall other, other <> name ->
           commands self' !! other = commands self !! other).
Proof.
  intros _. split.
  - intros description Hreg.
    destruct (slash_decorate_ok _ _ _ _ _ _ Hreg) as (d & -> & _ & ->).
    split; [apply lookup_insert_eq|].
    intros other Hne. by rewrite lookup_insert_ne.
  - intros aliases description Hreg.
    rewrite (message_decorate_ok _ _ _ _ _ _ _ Hreg).
    split; [apply lookup_insert_eq|].
    intros other Hne. by rewrite lookup_insert_ne.
Qed.

(** *** The error policy *)

(** C5.  Without a custom handler, handling an error replies to the context
    with the text "Error: " followed by [str(error)]: through [ctx.send] on
    a message context, through [response.send_message] on an interaction
    that has not been answered.  On an interaction that has been answered
    nothing is sent, nothing is raised and the platform is unchanged. *)
Theorem default_error_policy self error :
  error_handler self = None ->
  (forall c w,
      _handle_error self error (Context c) w
      = send c ("Error: " +:+ exc_str error) w)
  /\ (forall i w, is_done i w = false ->
        _handle_error self error (Interaction i) w
        = send_message i ("Error: " +:+ exc_str error) w)
  /\ (forall i w, is_done i w = true ->
        _handle_error self error (Interaction i) w = (Ok tt, w)).
Proof.
  intros Hnone. unfold _handle_error. rewrite Hnone.
  split; [done|].
  split; intros i w Hdone; by rewrite Hdone.
Qed.

Lemma try_except_raise {A} (body : IO A) (handler : PyExc -> IO A) e w w' :
  body w = (Raise e, w') ->
  is_Exception (exc_class e) = true ->
  try_except body handler w = handler e w'.
Proof. intros Hbody Hexc. unfold try_except. by rewrite Hbody, Hexc. Qed.

Lemma try_except_escape {A} (body : IO A) (handler : PyExc -> IO A) e w w' :
  body w = (Raise e, w') ->
  is_Exception (exc_class e) = false ->
  try_except body handler w = (Raise e, w').
Proof. intros Hbody Hexc. unfold try_except. by rewrite Hbody, Hexc. Qed.

(** C7.  [set_error_handler] stores its argument in the single handler
    slot, over whatever was there; from then on handling an error is
    running that handler, so what the handler raises is what
    [_handle_error] raises, and a wrapper that delegated to it raises the
    same. *)
Theorem set_error_handler_sole_sink self (previous handler : ErrHandler) :
  error_handler (set_error_handler handler self) = Some handler
  /\ error_handler (set_error_handler handler
                      (set_error_handler previous self)) = Some handler
  /\ (forall error ctx,
        _handle_error (set_error_handler handler
                         (set_error_handler previous self)) error ctx
        = handler error ctx)
  /\ (forall error ctx w x w',
        handler error ctx w = (Raise x, w') ->
        _handle_error (set_error_handler handler self) error ctx w
        = (Raise x, w'))
  /\ (forall func ctx args kwargs w e w1 x w2,
        try_body (set_error_handler handler self) func ctx args kwargs w
        = (Raise e, w1) ->
        is_Exception (exc_class e) = true ->
        handler e ctx w1 = (Raise x, w2) ->
        slash_wrapper func (set_error_handler handler self) ctx args kwargs w
        = (Raise x, w2)
        /\ message_wrapper func (set_error_handler handler self) ctx args
             kwargs w
           = (Raise x, w2)).
Proof.
  do 4 (split; [done|]).
  intros func ctx args kwargs w e w1 x w2 Hbody Hexc Hhandler.
  unfold slash_wrapper, message_wrapper.
  rewrite (try_except_raise _ _ _ _ _ Hbody Hexc).
  change (_handle_error (set_error_handler handler self) e ctx w1)
    with (handler e ctx w1).
  by rewrite Hhandler.
Qed.

(** C9.  With a custom handler installed, handling an error is running the
    handler, on every context and in every state of the platform: an
    interaction that has already been answered reaches the handler like any
    other, and [is_done] is not consulted. *)
Theorem custom_handler_unconditional self (handler : ErrHandler) error :
  error_handler self = Some handler ->
  (forall ctx w, _handle_error self error ctx w = handler error ctx w)
  /\ (forall i w, is_done i w = true ->
        _handle_error self error (Interaction i) w
        = handler error (Interaction i) w).
Proof.
  intros Hsome. unfold _handle_error. rewrite Hsome. done.
Qed.

(** *** The invocation wrappers *)

Lemma bind_keywords_raises (params : list Param) (kwargs : Dict.t) e :
  bind_keywords params kwargs = Raise e -> exc_class e = TypeError.
Proof.
  revert kwargs. induction params as [|p ps IH]; intros kwargs; simpl.
  - discriminate.
  - destruct (Dict.get kwargs (p_name p)) as [v|].
    + destruct (bind_keywords ps (Dict.del kwargs (p_name p)))
        as [[bound extra]|e'] eqn:Hrec; simpl.
      * discriminate.
      * intros [= <-]. eauto.
    + destruct (p_default p); [eauto|]. by intros [= <-].
Qed.

Lemma sig_bind_no_args (params : list Param) (kwargs : Dict.t) :
  sig_bind params [] kwargs
  = obind (bind_keywords params kwargs)
      (fun '(bound, extra) =>
         match extra with
         | [] => Ok bound
         | (k, _) :: _ =>
             Raise (type_error
               ("got an unexpected keyword argument '" +:+ k +:+ "'"))
         end).
Proof. reflexivity. Qed.

Lemma sig_bind_raises (params : list Param) (args : list PyVal)
    (kwargs : Dict.t) e :
  sig_bind params args kwargs = Raise e -> exc_class e = TypeError.
Proof.
  revert params. induction args as [|a args IH]; intros params.
  - rewrite sig_bind_no_args.
    destruct (bind_keywords params kwargs) as [[bound extra]|e'] eqn:Hkw;
      simpl.
    + destruct extra as [|[k v] extra]; [discriminate|]. by intros [= <-].
    + intros [= <-]. by eapply bind_keywords_raises.
  - destruct params as [|p ps]; simpl; [by intros [= <-]|].
    destruct (Dict.mem kwargs (p_name p)); [by intros [= <-]|].
    destruct (sig_bind ps args kwargs) as [bound|e'] eqn:Hrec; simpl.
    + discriminate.
    + intros [= <-]. eauto.
Qed.

Lemma try_body_bind_fails self func ctx args kwargs e w :
  sig_bind (f_params func) (VCtx ctx :: args) kwargs = Raise e ->
  try_body self func ctx args kwargs w = (Raise e, w).
Proof. intros Hbind. unfold try_body, bind, lift. by rewrite Hbind. Qed.

Lemma try_body_convert_fails self func ctx args kwargs bound e w w1 :
  sig_bind (f_params func) (VCtx ctx :: args) kwargs = Ok bound ->
  apply_converters self (f_params func)
    (apply_defaults (f_params func) bound) w = (Raise e, w1) ->
  try_body self func ctx args kwargs w = (Raise e, w1).
Proof.
  intros Hbind Hconv. unfold try_body, bind, lift. by rewrite Hbind, Hconv.
Qed.

Lemma try_body_calls self func ctx args kwargs bound arguments w w1 :
  sig_bind (f_params func) (VCtx ctx :: args) kwargs = Ok bound ->
  apply_converters self (f_params func)
    (apply_defaults (f_params func) bound) w = (Ok arguments, w1) ->
  try_body self func ctx args kwargs w
  = f_body func (bound_args (f_params func) arguments)
      (bound_kwargs false (f_params func) arguments) w1.
Proof.
  intros Hbind Hconv. unfold try_body, bind, lift. by rewrite Hbind, Hconv.
Qed.

(** A converter table keyed by classes only, as its declared type
    [Dict[Type, Callable]] prescribes, makes the conversion loop a no-op:
    its membership test looks the parameter's name up. *)
Lemma apply_converters_class_keys self (params : list Param)
    (arguments : Dict.t) :
  (forall s, converters self !! HStr s = None) ->
  apply_converters self params arguments = ret arguments.
Proof.
  intros Hkeys. revert arguments.
  induction params as [|p ps IH]; intros arguments; simpl; [done|].
  by rewrite Hkeys.
Qed.

Lemma slash_call_bound self func ctx (args : list PyVal) (kwargs : Dict.t) :
  Dict.mem kwargs "interaction" = false ->
  slash_call func self ctx args kwargs
  = slash_wrapper func self ctx args kwargs.
Proof. intros Hfree. unfold slash_call. by rewrite Hfree. Qed.

Lemma message_call_bound self func ctx (args : list PyVal)
    (kwargs : Dict.t) :
  Dict.mem kwargs "ctx" = false ->
  message_call func self ctx args kwargs
  = message_wrapper func self ctx args kwargs.
Proof. intros Hfree. unfold message_call. by rewrite Hfree. Qed.

(** C6, as the code has it.  Binding the arguments to the signature of the
    command function, converting and running the function all happen
    inside the [try]; binding raises only [TypeError].  When the call has
    bound the wrapper's own parameters, an exception raised inside the
    [try] that is an instance of [Exception] is handed to [_handle_error]
    in the state the platform was left in, and the wrapper ends as
    [_handle_error] ends, so it returns normally whenever the policy does.
    Two things are not caught.  An exception outside [Exception] is raised
    by the wrapper.  A keyword named like the wrapper's own first
    parameter, [interaction] for the slash wrapper and [ctx] for the
    message wrapper, makes the call raise [TypeError] before the [try], and
    the policy is not consulted. *)
Theorem wrapper_delegates_exceptions self func ctx args kwargs w :
  let sig := f_params func in
  let body := try_body self func ctx args kwargs in
  let slash := slash_call func self ctx args kwargs in
  let message := message_call func self ctx args kwargs in
  (forall e, sig_bind sig (VCtx ctx :: args) kwargs = Raise e ->
     body w = (Raise e, w) /\ is_Exception (exc_class e) = true)
  /\ (forall bound e w1,
        sig_bind sig (VCtx ctx :: args) kwargs = Ok bound ->
        apply_converters self sig (apply_defaults sig bound) w
        = (Raise e, w1) ->
        body w = (Raise e, w1))
  /\ (forall bound arguments e w1 w2,
        sig_bind sig (VCtx ctx :: args) kwargs = Ok bound ->
        apply_converters self sig (apply_defaults sig bound) w
        = (Ok arguments, w1) ->
        f_body func (bound_args sig arguments)
          (bound_kwargs false sig arguments) w1 = (Raise e, w2) ->
        body w = (Raise e, w2))
  /\ (forall e w1,
        body w = (Raise e, w1) ->
        is_Exception (exc_class e) = true ->
        (Dict.mem kwargs "interaction" = false ->
           slash w = _handle_error self e ctx w1
           /\ (fst (_handle_error self e ctx w1) = Ok tt ->
               fst (slash w) = Ok tt))
        /\ (Dict.mem kwargs "ctx" = false ->
              message w = _handle_error self e ctx w1
              /\ (fst (_handle_error self e ctx w1) = Ok tt ->
                  fst (message w) = Ok tt)))
  /\ (forall e w1,
        body w = (Raise e, w1) ->
        is_Exception (exc_class e) = false ->
        (Dict.mem kwargs "interaction" = false -> slash w = (Raise e, w1))
        /\ (Dict.mem kwargs "ctx" = false -> message w = (Raise e, w1)))
  /\ (Dict.mem kwargs "interaction" = true ->
        exists text, slash w = (Raise (mkExc TypeError text), w))
  /\ (Dict.mem kwargs "ctx" = true ->
        exists text, message w = (Raise (mkExc TypeError text), w)).
Proof.
  intros sig body slash message. subst body slash message.
  split; [|split; [|split; [|split; [|split; [|split]]]]].
  - intros e Hbind. split; [by apply try_body_bind_fails|].
    by rewrite (sig_bind_raises _ _ _ _ Hbind).
  - intros bound e w1 Hbind Hconv. by eapply try_body_convert_fails.
  - intros bound arguments e w1 w2 Hbind Hconv Hcall.
    by rewrite (try_body_calls _ _ _ _ _ _ _ _ _ Hbind Hconv).
  - intros e w1 Hbody Hexc. split; intros Hfree.
    + rewrite slash_call_bound by done. unfold slash_wrapper.
      rewrite (try_except_raise _ _ _ _ _ Hbody Hexc). by split.
    + rewrite message_call_bound by done. unfold message_wrapper.
      rewrite (try_except_raise _ _ _ _ _ Hbody Hexc). by split.
  - intros e w1 Hbody Hexc. split; intros Hfree.
    + rewrite slash_call_bound by done. unfold slash_wrapper.
      by rewrite (try_except_escape _ _ _ _ _ Hbody Hexc).
    + rewrite message_call_bound by done. unfold message_wrapper.
      by rewrite (try_except_escape _ _ _ _ _ Hbody Hexc).
  - intros Hclash. unfold slash_call. rewrite Hclash. by eexists.
  - intros Hclash. unfold message_call. rewrite Hclash. by eexists.
Qed.

(** *** Help *)

Lemma arguments_header_not_type_line (data : CommandData) :
  arguments_header ∉ type_lines data.
Proof.
  unfold type_lines, arguments_header, NL.
  destruct (cmd_type data), (truthy (cmd_description data));
    try destruct (cmd_aliases data) as [[|a l]|]; simpl;
    rewrite ?elem_of_cons, ?elem_of_nil; intros Hin;
    repeat (destruct Hin as [Hin|Hin]; [discriminate Hin|]);
    try discriminate Hin; done.
Qed.

Lemma elem_of_argument_lines self (params : list Param) (line : string) :
  line ∈ argument_lines self params <->
  1 < length params
  /\ (line = arguments_header
      \/ exists p, p ∈ params /\ is_skipped p = false
                   /\ line = param_line self p).
Proof.
  unfold argument_lines. case_bool_decide as Hlen.
  - rewrite elem_of_cons, list_elem_of_fmap. split.
    + intros [->|(p & -> & Hp)]; (split; [done|]); [by left|].
      apply list_elem_of_filter in Hp as [Hskip Hp]. right. eauto.
    + intros [_ [->|(p & Hp & Hskip & ->)]]; [by left|].
      right. exists p. split; [done|]. by apply list_elem_of_filter.
  - rewrite elem_of_nil. split; [done|]. by intros [Hlt _].
Qed.

Lemma schema_nonempty func :
  0 < length (spec_parameter_schema func) <-> 1 < length (f_params func).
Proof.
  unfold spec_parameter_schema. destruct (f_params func); simpl; lia.
Qed.

Lemma arguments_header_not_before (command_name : string)
    (data : CommandData) :
  arguments_header
  ∉ (["**" +:+ command_name +:+ "**"] ++ type_lines data)%list.
Proof.
  rewrite elem_of_app, list_elem_of_singleton.
  intros [Heq|Hin]; [discriminate Heq|].
  by apply (arguments_header_not_type_line data).
Qed.

Lemma filter_is_skipped (params : list Param) :
  filter (fun p => is_skipped p = false) params
  = filter (fun p => p_name p ∉ ["self"; "ctx"; "interaction"]) params.
Proof.
  apply list_filter_iff. intros p. unfold is_skipped, skipped_names.
  apply bool_decide_eq_false.
Qed.

Lemma tail_not_hidden (first : Param) (rest : list Param) :
  p_name first ∈ ["self"; "ctx"; "interaction"] ->
  Forall (fun p => p_name p ∉ ["self"; "ctx"; "interaction"]) rest ->
  filter (fun p => p_name p ∉ ["self"; "ctx"; "interaction"]) (first :: rest)
  = rest.
Proof.
  intros Hfirst Hrest. rewrite filter_cons_False by (intros Hnot; done).
  induction Hrest as [|p rest Hp _ IH]; [done|].
  rewrite filter_cons_True by done. by rewrite IH.
Qed.

(** C2.  For a registered command, the help message has the entry made of
    a line break and "Arguments:" exactly when the signature has at least
    one parameter besides the leading context parameter, that is, more
    than one parameter.  When it has, the message is the name line and the
    type lines, then that entry, then one line for every parameter whose
    name is not self, ctx or interaction, in declaration order; otherwise
    it is the name line and the type lines alone.  For a function whose
    context parameter comes first and bears one of these names, and whose
    other parameters bear none of them, the lines are those of the
    parameters after the context parameter, one each.  A line is "- `",
    the name, "`: ", the name of the declared type or "Any", " (",
    "Required" or "Optional (default: v)", ")", and then
    " (Custom converter available)" exactly when the annotation is a key
    of the converter table. *)
Theorem help_arguments_section self (command_name : string)
    (data : CommandData) :
  commands self !! command_name = Some data ->
  let params := f_params (cmd_func data) in
  let schema := spec_parameter_schema (cmd_func data) in
  let message := help_message self command_name data in
  let newline :=
    String (Ascii.Ascii false true false true false false false false) "" in
  let header := newline +:+ "Arguments:" in
  let hidden := ["self"; "ctx"; "interaction"] in
  let before := ("**" +:+ command_name +:+ "**") :: type_lines data in
  let listed :=
    map (param_line self) (filter (fun p => p_name p ∉ hidden) params) in
  generate_help self command_name = join newline message
  /\ (header ∈ message <-> 0 < length schema)
  /\ (header ∈ message <-> 1 < length params)
  /\ (0 < length schema ->
      message = (before ++ header :: listed)%list /\ header ∉ before)
  /\ (length schema = 0 -> message = before)
  /\ (forall first rest,
        params = first :: rest ->
        p_name first ∈ hidden ->
        Forall (fun p => p_name p ∉ hidden) rest ->
        schema = rest /\ listed = map (param_line self) schema)
  /\ (forall p,
        param_line self p
        = "- `" +:+ p_name p +:+ "`: " +:+ param_type p +:+
          " (" +:+ default_str p +:+ ")" +:+ converter_note self p
        /\ (forall t, p_annotation p = Some t -> param_type p = type_name t)
        /\ (p_annotation p = None -> param_type p = "Any")
        /\ (p_default p = None -> default_str p = "Required")
        /\ (forall v, p_default p = Some v ->
              default_str p = "Optional (default: " +:+ py_str v +:+ ")")
        /\ (is_Some (converters self !! annotation_key p) ->
              converter_note self p = " (Custom converter available)")
        /\ (converters self !! annotation_key p = None ->
              converter_note self p = "")
        /\ (forall t, p_annotation p = Some t ->
              (converter_note self p = " (Custom converter available)"
               <-> is_Some (converters self !! HType t)))).
Proof.
  intros Hreg params schema message newline header hidden before listed.
  assert (header ∈ message <-> 1 < length params) as Hheader.
  { subst message. unfold help_message.
    rewrite app_assoc, elem_of_app, elem_of_argument_lines.
    split.
    - intros [Hbefore|[Hlen _]]; [|done].
      by apply (arguments_header_not_before command_name data) in Hbefore.
    - intros Hlen. right. split; [done|by left]. }
  split; [unfold generate_help; by rewrite Hreg|].
  split; [subst schema; by rewrite schema_nonempty|].
  split; [done|].
  split; [|split; [|split]].
  - intros Hlen. apply schema_nonempty in Hlen.
    split; [|apply (arguments_header_not_before command_name data)].
    subst message listed params. unfold help_message, argument_lines.
    rewrite bool_decide_eq_true_2 by done.
    by rewrite <- filter_is_skipped.
  - intros Hlen. subst message before. unfold help_message, argument_lines.
    rewrite bool_decide_eq_false_2.
    + by rewrite app_nil_r.
    + intros Hmore. apply schema_nonempty in Hmore. subst schema. lia.
  - intros first rest Hparams Hfirst Hrest.
    subst schema listed. unfold spec_parameter_schema.
    fold params. rewrite Hparams. simpl.
    split; [done|]. by rewrite tail_not_hidden.
  - intros p. unfold param_type, default_str, converter_note, annotation_key.
    split; [done|].
    split; [by intros t ->|]. split; [by intros ->|].
    split; [by intros ->|]. split; [by intros v ->|].
    split; [by intros [conv ->]|]. split; [by intros ->|].
    intros t ->. destruct (converters self !! HType t) as [conv|].
    + split; [eauto|done].
    + split; [discriminate|]. by intros [conv Hconv].
Qed.

Lemma argument_lines_not_description self (params : list Param)
    (line : string) :
  line ∈ argument_lines self params ->
  String.prefix "Description:" line = false.
Proof.
  rewrite elem_of_argument_lines.
  intros [_ [->|(p & _ & _ & ->)]]; reflexivity.
Qed.

(** C10.  [message_command] accepts the empty string as description: it
    returns its decorator without raising, where [slash_command] raises
    [ValueError].  Once the framework has accepted the wrapper, the record
    stored under the name carries the empty description, no entry of the
    help message for it starts with "Description:", and the help text is
    the one of the same command registered with no description. *)
Theorem message_command_empty_description self (name : string)
    (aliases : option (list string)) func :
  let stored :=
    mkCommand Message (Some (aliases_or_empty aliases)) (Some "") func in
  let undescribed :=
    mkCommand Message (Some (aliases_or_empty aliases)) None func in
  fst (bot_command name (aliases_or_empty aliases) (Some "") (bot self))
  = Ok tt ->
  fst (message_command name aliases (Some "") self)
  = Ok (message_decorator name aliases (Some ""))
  /\ fst (slash_command name (Some "") self) = Raise description_required
  /\ exists self',
       decorate (message_command name aliases (Some "")) func self
       = (Ok (message_wrapper func), self')
       /\ commands self' !! name = Some stored
       /\ (forall line, line ∈ help_message self' name stored ->
             String.prefix "Description:" line = false)
       /\ generate_help self' name
          = join NL (help_message self' name undescribed).
Proof.
  intros stored undescribed Haccept.
  split; [reflexivity|]. split; [reflexivity|].
  unfold decorate, message_command, message_decorator.
  destruct (bot_command name (aliases_or_empty aliases) (Some "") (bot self))
    as [[[]|e] bot'] eqn:Hbot; [|discriminate Haccept].
  eexists. split; [reflexivity|]. simpl.
  split; [apply lookup_insert_eq|].
  split.
  - intros line. unfold help_message, stored, type_lines. simpl.
    rewrite !elem_of_cons.
    intros [->|[->|Hin]]; [reflexivity|reflexivity|].
    apply elem_of_app in Hin as [Hin|Hin].
    + destruct (aliases_or_empty aliases) as [|a l].
      * by apply elem_of_nil in Hin.
      * apply list_elem_of_singleton in Hin as ->. reflexivity.
    + by eapply argument_lines_not_description.
  - unfold generate_help. simpl. by rewrite lookup_insert_eq.
Qed.

End Properties.

(** ** The claims on the simulated platform *)

Example help_of_add :
  generate_help (D := Sim.platform) Sim.with_sum "add"
  = "**add**" +:+ NL +:+
    "Type: Message Command" +:+ NL +:+
    "Description: old" +:+ NL +:+
    "Aliases: sum" +:+ NL +:+
    NL +:+ "Arguments:" +:+ NL +:+
    "- `a`: int (Required) (Custom converter available)" +:+ NL +:+
    "- `b`: int (Required) (Custom converter available)".
Proof. vm_compute. reflexivity. Qed.

Example help_of_ping :
  generate_help (D := Sim.platform) Sim.with_ping "ping"
  = "**ping**" +:+ NL +:+
    "Type: Message Command" +:+ NL +:+
    NL +:+ "Arguments:" +:+ NL +:+
    "- `command_name`: str (Optional (default: None))".
Proof. vm_compute. reflexivity. Qed.

Example bind_missing :
  sig_bind Sim.ctx_a_b [VCtx (Context 7); VInt 3] []
  = Raise (type_error "missing a required argument: 'b'").
Proof. reflexivity. Qed.

Example bind_by_keyword :
  sig_bind Sim.ctx_a_b [VCtx (Context 7); VInt 3] [("b", VInt 4)]
  = Ok [("ctx", VCtx (Context 7)); ("a", VInt 3); ("b", VInt 4)].
Proof. reflexivity. Qed.

(** C1.  The table maps [int] to a converter that doubles, and the command
    function has the signature [(ctx, a: int, b: int)]; invoked with
    [(ctx, 3, 4)], either wrapper calls it with [(ctx, 3, 4)], not with
    [(ctx, 6, 8)]: the loop asks whether the name of the parameter is a key
    of the table, which holds classes. *)
Theorem doubling_converter_not_applied :
  converters Sim.doubling_creator !! HType TInt = Some Sim.double
  /\ fst (Sim.double (VInt 3) Sim.empty_world) = Ok (VInt 6)
  /\ Sim.calls (snd (slash_wrapper Sim.spy Sim.doubling_creator
                       (Interaction 1) [VInt 3; VInt 4] [] Sim.empty_world))
     = [[VCtx (Interaction 1); VInt 3; VInt 4]]
  /\ Sim.calls (snd (message_wrapper Sim.spy Sim.doubling_creator
                       (Context 1) [VInt 3; VInt 4] [] Sim.empty_world))
     = [[VCtx (Context 1); VInt 3; VInt 4]].
Proof.
  split; [apply lookup_insert_eq|].
  split; [reflexivity|].
  split; vm_compute; reflexivity.
Qed.

(** C6, the claim as worded fails.  The default policy of the simulated
    platform never raises, yet a command function that raises [SystemExit]
    makes both wrappers raise it: [except Exception] does not catch what
    derives from [BaseException] only, and the policy is not consulted. *)
Lemma system_exit_escapes_wrapper :
  (forall e ctx w,
     fst (_handle_error (D := Sim.platform) Sim.creator e ctx w) = Ok tt)
  /\ slash_wrapper Sim.quitter Sim.creator (Interaction 1) [] []
       Sim.empty_world
     = (Raise (mkExc SystemExit ""), Sim.empty_world)
  /\ message_wrapper Sim.quitter Sim.creator (Context 1) [] []
       Sim.empty_world
     = (Raise (mkExc SystemExit ""), Sim.empty_world).
Proof.
  split; [|split; reflexivity].
  intros e [i|c] w; [|reflexivity].
  unfold _handle_error. simpl. unfold Sim.sim_send_message.
  destruct (Sim.sim_is_done i w); reflexivity.
Qed.

(** Witness of C8: "sub" is not registered next to "add". *)
Lemma generate_help_unknown_witness :
  commands Sim.with_sum !! "sub" = None
  /\ generate_help (D := Sim.platform) Sim.with_sum "sub"
     = "Command not found.".
Proof.
  assert (commands Sim.with_sum !! "sub" = None) as Habsent
    by (vm_compute; reflexivity).
  split; [exact Habsent|].
  exact (generate_help_unknown Sim.with_sum "sub" Habsent).
Defined.

(** Witness of C3: an empty description, on a creator that holds "add". *)
Lemma slash_command_empty_description_witness :
  truthy (Some "") = false
  /\ decorate (D := Sim.platform) (slash_command "help" (Some ""))
       Sim.help_func Sim.with_sum
     = (Raise description_required, Sim.with_sum).
Proof.
  split; [reflexivity|].
  exact (proj1 (proj2 (slash_command_empty_description Sim.with_sum "help"
                         (Some "") Sim.help_func eq_refl))).
Defined.

(** Witness of C4: "add" was a message command with the alias "sum" and the
    description "old"; registering a slash command "add" leaves a record
    with neither. *)
Lemma reregister_overwrites_witness :
  commands Sim.with_sum !! "add"
  = Some (mkCommand Message (Some ["sum"]) (Some "old") Sim.spy)
  /\ commands Sim.with_sum_again !! "add"
     = Some (mkCommand Slash None (Some "new") Sim.help_func).
Proof.
  assert (commands Sim.with_sum !! "add"
          = Some (mkCommand Message (Some ["sum"]) (Some "old") Sim.spy))
    as Hold by apply lookup_insert_eq.
  split; [exact Hold|].
  exact (proj1 (proj1 (reregister_overwrites (D := Sim.platform)
                         Sim.with_sum Sim.with_sum_again "add" Sim.help_func
                         (slash_wrapper Sim.help_func) _ Hold)
                  (Some "new") eq_refl)).
Defined.

(** Witness of C5: the reply to a fresh interaction, and the silence on an
    answered one. *)
Lemma default_error_policy_witness :
  error_handler Sim.creator = None
  /\ _handle_error (D := Sim.platform) Sim.creator Sim.boom (Interaction 1)
       Sim.empty_world
     = (Ok tt,
        Sim.mkWorld [1%N] [(Interaction 1, "Error: boom")] [])
  /\ _handle_error (D := Sim.platform) Sim.creator Sim.boom (Interaction 1)
       (Sim.answered 1)
     = (Ok tt, Sim.answered 1).
Proof.
  split; [reflexivity|].
  destruct (default_error_policy (D := Sim.platform) Sim.creator Sim.boom
              eq_refl) as (_ & Hfresh & Hdone).
  split.
  - rewrite (Hfresh 1%N Sim.empty_world eq_refl). reflexivity.
  - exact (Hdone 1%N (Sim.answered 1) eq_refl).
Defined.

(** Witness of C7: a handler that fails, installed over another one. *)
Lemma set_error_handler_sole_sink_witness :
  _handle_error (D := Sim.platform)
    (set_error_handler Sim.failing_handler
       (set_error_handler Sim.replying_handler Sim.creator))
    Sim.boom (Context 1) Sim.empty_world
  = (Raise (mkExc RuntimeError "handler failed"), Sim.empty_world)
  /\ message_wrapper Sim.spy
       (set_error_handler Sim.failing_handler Sim.creator) (Context 1)
       [VInt 3] [] Sim.empty_world
     = (Raise (mkExc RuntimeError "handler failed"), Sim.empty_world).
Proof.
  destruct (set_error_handler_sole_sink (D := Sim.platform) Sim.creator
              Sim.replying_handler Sim.failing_handler)
    as (_ & _ & Hsink & _ & Hwrapper).
  split.
  - rewrite Hsink. reflexivity.
  - exact (proj2 (Hwrapper Sim.spy (Context 1) [VInt 3] [] Sim.empty_world
                    (type_error "missing a required argument: 'b'")
                    Sim.empty_world
                    (mkExc RuntimeError "handler failed") Sim.empty_world
                    eq_refl eq_refl eq_refl)).
Defined.

(** Witness of C9: the interaction has been answered, and the handler is
    run all the same; its own reply is then refused by the platform. *)
Lemma custom_handler_unconditional_witness :
  is_done (Discord := Sim.platform) 1%N (Sim.answered 1) = true
  /\ _handle_error (D := Sim.platform)
       (set_error_handler Sim.replying_handler Sim.creator) Sim.boom
       (Interaction 1) (Sim.answered 1)
     = (Raise (mkExc InteractionResponded
                 "This interaction has already been responded to before"),
        Sim.answered 1).
Proof.
  split; [reflexivity|].
  rewrite (proj2 (custom_handler_unconditional (D := Sim.platform)
                    (set_error_handler Sim.replying_handler Sim.creator)
                    Sim.replying_handler Sim.boom eq_refl)
             1%N (Sim.answered 1) eq_refl).
  reflexivity.
Defined.

(** Witness of C6: a call that misses an argument and a command function
    that raises both end in the default reply, and the wrapper returns; a
    call with the keyword [ctx] makes the message wrapper raise. *)
Lemma wrapper_delegates_exceptions_witness :
  slash_call Sim.spy Sim.creator (Interaction 1) [VInt 3] []
    Sim.empty_world
  = (Ok tt,
     Sim.mkWorld [1%N]
       [(Interaction 1, "Error: missing a required argument: 'b'")] [])
  /\ message_call Sim.raiser Sim.creator (Context 2) [] [] Sim.empty_world
     = (Ok tt, Sim.mkWorld [] [(Context 2, "Error: boom")] [])
  /\ exists text,
       message_call Sim.spy Sim.creator (Context 2) [VInt 3]
         [("ctx", VInt 9)] Sim.empty_world
       = (Raise (mkExc TypeError text), Sim.empty_world).
Proof.
  split; [|split].
  - destruct (wrapper_delegates_exceptions (D := Sim.platform) Sim.creator
                Sim.spy (Interaction 1) [VInt 3] [] Sim.empty_world)
      as (Hbind & _ & _ & Hcaught & _).
    destruct (Hbind (type_error "missing a required argument: 'b'") eq_refl)
      as [Hbody Hexc].
    rewrite (proj1 (proj1 (Hcaught _ _ Hbody Hexc) eq_refl)).
    reflexivity.
  - destruct (wrapper_delegates_exceptions (D := Sim.platform) Sim.creator
                Sim.raiser (Context 2) [] [] Sim.empty_world)
      as (_ & _ & Hcall & Hcaught & _).
    rewrite (proj1 (proj2 (Hcaught (mkExc ValueError "boom") Sim.empty_world
                             (Hcall [("ctx", VCtx (Context 2))]
                                [("ctx", VCtx (Context 2))]
                                (mkExc ValueError "boom") Sim.empty_world
                                Sim.empty_world eq_refl eq_refl eq_refl)
                             eq_refl) eq_refl)).
    reflexivity.
  - exact (proj2 (proj2 (proj2 (proj2 (proj2 (proj2
             (wrapper_delegates_exceptions (D := Sim.platform) Sim.creator
                Sim.spy (Context 2) [VInt 3] [("ctx", VInt 9)]
                Sim.empty_world)))))) eq_refl).
Defined.

(** Witness of C2: the message command "add" with the signature
    [(ctx, a: int, b: int)] and a converter registered for [int]; the
    parameter [ctx] is left out. *)
Lemma help_arguments_section_witness :
  commands Sim.with_sum !! "add"
  = Some (mkCommand Message (Some ["sum"]) (Some "old") Sim.spy)
  /\ help_message (D := Sim.platform) Sim.with_sum "add"
       (mkCommand Message (Some ["sum"]) (Some "old") Sim.spy)
     = [ "**add**";
         "Type: Message Command";
         "Description: old";
         "Aliases: sum";
         String (Ascii.Ascii false true false true false false false false)
           "Arguments:";
         "- `a`: int (Required) (Custom converter available)";
         "- `b`: int (Required) (Custom converter available)" ].
Proof.
  assert (commands Sim.with_sum !! "add"
          = Some (mkCommand Message (Some ["sum"]) (Some "old") Sim.spy))
    as Hreg by apply lookup_insert_eq.
  split; [exact Hreg|].
  destruct (help_arguments_section (D := Sim.platform) Sim.with_sum "add" _
              Hreg) as (_ & _ & _ & Hsection & _).
  rewrite (proj1 (Hsection (le_S _ _ (le_n 1)))).
  vm_compute. reflexivity.
Defined.

(** Witness of C10: [@message_command("ping", description="")] on the
    simulated platform, which accepts every wrapper. *)
Lemma message_command_empty_description_witness :
  fst (bot_command (Discord := Sim.platform) "ping" [] (Some "") [])
  = Ok tt
  /\ exists self',
       decorate (D := Sim.platform) (message_command "ping" None (Some ""))
         Sim.help_func Sim.creator
       = (Ok (message_wrapper Sim.help_func), self')
       /\ commands self' !! "ping"
          = Some (mkCommand Message (Some []) (Some "") Sim.help_func)
       /\ (forall line,
             line ∈ help_message self' "ping"
                      (mkCommand Message (Some []) (Some "") Sim.help_func) ->
             String.prefix "Description:" line = false)
       /\ generate_help self' "ping"
          = join NL (help_message self' "ping"
                       (mkCommand Message (Some []) None Sim.help_func)).
Proof.
  split; [reflexivity|].
  exact (proj2 (proj2 (message_command_empty_description (D := Sim.platform)
                         Sim.creator "ping" None Sim.help_func eq_refl))).
Defined.

(** ** Further properties of the code *)

Section HelpProperties.

Context `{D : Discord}.

Implicit Types (self : CommandCreator) (func : Func) (data : CommandData).

Lemma help_message_starts self (command_name : string) data :
  exists rest,
    help_message self command_name data
    = ("**" +:+ command_name +:+ "**")
      :: (match cmd_type data with
          | Slash => "Type: Slash Command"
          | Message => "Type: Message Command"
          end)
      :: rest.
Proof.
  unfold help_message, type_lines.
  destruct (cmd_type data); simpl; eauto.
Qed.

(** X1.  [generate_help] answers "Command not found." for unregistered names
    only: the text for a registered command begins with its name in
    asterisks. *)
Theorem generate_help_not_found_iff self (command_name : string) :
  generate_help self command_name = "Command not found."
  <-> commands self !! command_name = None.
Proof.
  unfold generate_help.
  destruct (commands self !! command_name) as [data|]; [|done].
  destruct (help_message_starts self command_name data) as [rest ->].
  simpl. split; discriminate.
Qed.

Lemma elem_of_help_message self (command_name : string) data
    (line : string) :
  line ∈ help_message self command_name data
  <-> line = "**" +:+ command_name +:+ "**"
      \/ line ∈ type_lines data
      \/ line ∈ argument_lines self (f_params (cmd_func data)).
Proof.
  unfold help_message.
  by rewrite elem_of_app, list_elem_of_singleton, elem_of_app.
Qed.

Lemma argument_lines_first_char self (params : list Param) (line : string) :
  line ∈ argument_lines self params ->
  String.prefix "Description: " line = false
  /\ String.prefix "Aliases: " line = false.
Proof.
  rewrite elem_of_argument_lines.
  intros [_ [->|(p & _ & _ & ->)]]; split; reflexivity.
Qed.

(** X2.  The help message has an entry that starts with "Description: " exactly
    when the stored description is a non-empty string, for either kind of
    command, and that entry is "Description: " followed by the
    description. *)
Theorem help_description_line self (command_name : string) data :
  ((exists line, line ∈ help_message self command_name data
                 /\ String.prefix "Description: " line = true)
   <-> truthy (cmd_description data) = true)
  /\ (forall line,
        line ∈ help_message self command_name data ->
        String.prefix "Description: " line = true ->
        exists d, cmd_description data = Some d /\ d <> ""
                  /\ line = "Description: " +:+ d)
  /\ (forall d, cmd_description data = Some d -> d <> "" ->
        "Description: " +:+ d ∈ help_message self command_name data).
Proof.
  assert (forall line,
            line ∈ help_message self command_name data ->
            String.prefix "Description: " line = true ->
            exists d, cmd_description data = Some d /\ d <> ""
                      /\ line = "Description: " +:+ d) as Honly.
  { intros line. rewrite elem_of_help_message. unfold type_lines.
    intros [->|[Hin|Hin]] Hprefix.
    - discriminate Hprefix.
    - destruct (cmd_description data) as [d|]; simpl in Hin.
      + case_bool_decide as Hd; simpl in Hin;
          destruct (cmd_type data);
          try destruct (cmd_aliases data) as [[|a l]|]; simpl in Hin;
          rewrite ?elem_of_cons, ?elem_of_nil in Hin;
          repeat (destruct Hin as [Hin|Hin];
                  [subst line; try discriminate Hprefix; eauto|]);
          done.
      + destruct (cmd_type data);
          try destruct (cmd_aliases data) as [[|a l]|]; simpl in Hin;
          rewrite ?elem_of_cons, ?elem_of_nil in Hin;
          repeat (destruct Hin as [Hin|Hin];
                  [subst line; discriminate Hprefix|]);
          done.
    - apply argument_lines_first_char in Hin as [Hnot _]. congruence. }
  assert (forall d, cmd_description data = Some d -> d <> "" ->
            "Description: " +:+ d ∈ help_message self command_name data)
    as Hthere.
  { intros d Hd Hne. apply elem_of_help_message. right. left.
    unfold type_lines. rewrite Hd. simpl.
    rewrite bool_decide_eq_false_2 by done. simpl.
    destruct (cmd_type data); simpl; rewrite !elem_of_cons; eauto. }
  split; [|split; [exact Honly|exact Hthere]].
  split.
  - intros (line & Hin & Hprefix).
    destruct (Honly line Hin Hprefix) as (d & -> & Hne & _). simpl.
    by rewrite bool_decide_eq_false_2.
  - destruct (cmd_description data) as [d|] eqn:Hd; [|discriminate].
    simpl. case_bool_decide as Hne; [discriminate|]. intros _.
    exists ("Description: " +:+ d). split; [by apply Hthere|].
    by destruct d.
Qed.

(** X3.  The help message has an entry that starts with "Aliases: " exactly for
    a message command whose alias list is not empty, and that entry is
    "Aliases: " followed by the aliases joined with ", "; the help of a
    slash command never has one. *)
Theorem help_aliases_line self (command_name : string) data :
  ((exists line, line ∈ help_message self command_name data
                 /\ String.prefix "Aliases: " line = true)
   <-> cmd_type data = Message
       /\ exists a l, cmd_aliases data = Some (a :: l))
  /\ (forall line,
        line ∈ help_message self command_name data ->
        String.prefix "Aliases: " line = true ->
        exists a l, cmd_type data = Message
                    /\ cmd_aliases data = Some (a :: l)
                    /\ line = "Aliases: " +:+ join ", " (a :: l)).
Proof.
  assert (forall line,
            line ∈ help_message self command_name data ->
            String.prefix "Aliases: " line = true ->
            exists a l, cmd_type data = Message
                        /\ cmd_aliases data = Some (a :: l)
                        /\ line = "Aliases: " +:+ join ", " (a :: l))
    as Honly.
  { intros line. rewrite elem_of_help_message. unfold type_lines.
    intros [->|[Hin|Hin]] Hprefix.
    - discriminate Hprefix.
    - destruct (truthy (cmd_description data)), (cmd_type data);
        try destruct (cmd_aliases data) as [[|a l]|]; simpl in Hin;
        rewrite ?elem_of_cons, ?elem_of_nil in Hin;
        repeat (destruct Hin as [Hin|Hin];
                [subst line; try discriminate Hprefix; eauto 6|]);
        done.
    - apply argument_lines_first_char in Hin as [_ Hnot]. congruence. }
  split; [|exact Honly].
  split.
  - intros (line & Hin & Hprefix).
    destruct (Honly line Hin Hprefix) as (a & l & Hkind & Hal & _). eauto.
  - intros (Hkind & a & l & Hal).
    exists ("Aliases: " +:+ join ", " (a :: l)).
    split; [|by destruct (join ", " (a :: l))].
    apply elem_of_help_message. right. left.
    unfold type_lines. rewrite Hkind, Hal.
    destruct (truthy (cmd_description data)); simpl;
      rewrite !elem_of_cons; eauto.
Qed.

End HelpProperties.

Section RegistrationProperties.

Context `{D : Discord}.

Implicit Types (self : CommandCreator) (func : Func) (data : CommandData).

Lemma param_line_ext self1 self2 (p : Param) :
  converters self1 = converters self2 ->
  param_line self1 p = param_line self2 p.
Proof.
  intros Hconv. unfold param_line, converter_note. by rewrite Hconv.
Qed.

Lemma argument_lines_ext self1 self2 (params : list Param) :
  converters self1 = converters self2 ->
  argument_lines self1 params = argument_lines self2 params.
Proof.
  intros Hconv. unfold argument_lines.
  case_bool_decide; [|done]. f_equal.
  apply map_ext. intros p. by apply param_line_ext.
Qed.

Lemma generate_help_ext self1 self2 (command_name : string) :
  converters self1 = converters self2 ->
  commands self1 !! command_name = commands self2 !! command_name ->
  generate_help self1 command_name = generate_help self2 command_name.
Proof.
  intros Hconv Hcmd. unfold generate_help, help_message. rewrite Hcmd.
  destruct (commands self2 !! command_name) as [data|]; [|done].
  by rewrite (argument_lines_ext self1 self2).
Qed.

Lemma slash_decorate_frame self (name : string)
    (description : option string) func :
  let after := snd (decorate (slash_command name description) func self) in
  converters after = converters self
  /\ error_handler after = error_handler self
  /\ bot after = bot self
  /\ forall other, other <> name ->
       commands after !! other = commands self !! other.
Proof.
  unfold decorate, slash_command, slash_decorator.
  destruct description as [d|]; simpl; [|done].
  case_bool_decide; simpl; [done|].
  destruct (tree_command name d (tree self)) as [[[]|e] tree']; simpl;
    repeat split; try done.
  intros other Hne. by rewrite lookup_insert_ne.
Qed.

Lemma message_decorate_frame self (name : string)
    (aliases : option (list string)) (description : option string) func :
  let after :=
    snd (decorate (message_command name aliases description) func self) in
  converters after = converters self
  /\ error_handler after = error_handler self
  /\ tree after = tree self
  /\ forall other, other <> name ->
       commands after !! other = commands self !! other.
Proof.
  unfold decorate, message_command, message_decorator. simpl.
  destruct (bot_command name (aliases_or_empty aliases) description
              (bot self)) as [[[]|e] bot']; simpl;
    repeat split; try done.
  intros other Hne. by rewrite lookup_insert_ne.
Qed.

(** X4.  Applying either registration decorator, whether it succeeds or raises,
    leaves the converter table and the error handler as they were and
    changes no entry of the command map but the one under its own name, so
    the help text of every other name is what it was. *)
Theorem registration_frame self (name : string)
    (aliases : option (list string)) (description : option string) func :
  let slash := snd (decorate (slash_command name description) func self) in
  let message :=
    snd (decorate (message_command name aliases description) func self) in
  converters slash = converters self
  /\ error_handler slash = error_handler self
  /\ converters message = converters self
  /\ error_handler message = error_handler self
  /\ forall other, other <> name ->
       commands slash !! other = commands self !! other
       /\ commands message !! other = commands self !! other
       /\ generate_help slash other = generate_help self other
       /\ generate_help message other = generate_help self other.
Proof.
  intros slash message.
  destruct (slash_decorate_frame self name description func)
    as (Hsc & Hse & _ & Hsk).
  destruct (message_decorate_frame self name aliases description func)
    as (Hmc & Hme & _ & Hmk).
  do 4 (split; [done|]).
  intros other Hne. split; [by apply Hsk|]. split; [by apply Hmk|].
  split; apply generate_help_ext; auto.
Qed.

(** X5.  When the framework's registration surface raises, the decorator raises
    the same exception and the command map is the one it was: the entry is
    assigned only after the framework has accepted the wrapper. *)
Theorem rejected_registration_keeps_commands self (name : string) func e :
  (forall d, d <> "" ->
     fst (tree_command name d (tree self)) = Raise e ->
     fst (decorate (slash_command name (Some d)) func self) = Raise e
     /\ commands (snd (decorate (slash_command name (Some d)) func self))
        = commands self)
  /\ (forall aliases description,
        fst (bot_command name (aliases_or_empty aliases) description
               (bot self)) = Raise e ->
        fst (decorate (message_command name aliases description) func self)
        = Raise e
        /\ commands (snd (decorate (message_command name aliases description)
                            func self))
           = commands self).
Proof.
  split.
  - intros d Hd. unfold decorate, slash_command, slash_decorator. simpl.
    rewrite bool_decide_eq_false_2 by done. simpl.
    destruct (tree_command name d (tree self)) as [[[]|e'] tree']; simpl;
      [discriminate|]. by intros [= ->].
  - intros aliases description.
    unfold decorate, message_command, message_decorator. simpl.
    destruct (bot_command name (aliases_or_empty aliases) description
                (bot self)) as [[[]|e'] bot']; simpl; [discriminate|].
    by intros [= ->].
Qed.

(** X6.  A slash command that has been registered has, as help text, its name,
    the line "Type: Slash Command", the line of its description, which is
    never missing, and the argument section of its function; it has no
    alias line. *)
Theorem slash_registration_help self self' (name : string)
    (description : option string) func (wr : Wrapper) :
  decorate (slash_command name description) func self = (Ok wr, self') ->
  exists d,
    description = Some d /\ d <> ""
    /\ generate_help self' name
       = join NL (["**" +:+ name +:+ "**";
                   "Type: Slash Command";
                   "Description: " +:+ d]
                  ++ argument_lines self (f_params func))%list.
Proof.
  intros Hreg.
  destruct (slash_decorate_frame self name description func)
    as (Hconv & _). rewrite Hreg in Hconv. simpl in Hconv.
  destruct (slash_decorate_ok _ _ _ _ _ _ Hreg) as (d & -> & Hd & Hcmd).
  exists d. do 2 (split; [done|]).
  unfold generate_help. rewrite Hcmd, lookup_insert_eq.
  unfold help_message, type_lines. simpl.
  rewrite bool_decide_eq_false_2 by done. simpl.
  by rewrite (argument_lines_ext self' self).
Qed.

(** X7.  A message command that has been registered has, as help text, its
    name, the line "Type: Message Command", a description line when the
    description is a non-empty string, an alias line when aliases were
    given, and the argument section of its function, in this order. *)
Theorem message_registration_help self self' (name : string)
    (aliases : option (list string)) (description : option string) func
    (wr : Wrapper) :
  decorate (message_command name aliases description) func self
  = (Ok wr, self') ->
  generate_help self' name
  = join NL (["**" +:+ name +:+ "**"; "Type: Message Command"]
             ++ match description with
                | Some d =>
                    if bool_decide (d = "") then []
                    else ["Description: " +:+ d]
                | None => []
                end
             ++ match aliases with
                | Some (a :: l) => ["Aliases: " +:+ join ", " (a :: l)]
                | _ => []
                end
             ++ argument_lines self (f_params func))%list.
Proof.
  intros Hreg.
  destruct (message_decorate_frame self name aliases description func)
    as (Hconv & _). rewrite Hreg in Hconv. simpl in Hconv.
  unfold generate_help.
  rewrite (message_decorate_ok _ _ _ _ _ _ _ Hreg), lookup_insert_eq.
  unfold help_message, type_lines. simpl.
  rewrite (argument_lines_ext self' self) by done.
  destruct description as [d|]; simpl; [case_bool_decide; simpl|];
    by destruct aliases as [[|a l]|].
Qed.

(** X8.  [register_converter] stores the converter under its key over whatever
    was there, touching no other key, no command and not the error handler;
    afterwards the help line of every parameter annotated with that key
    carries the converter note, and the line of every other parameter is
    what it was. *)
Theorem register_converter_effect self (k : Hashable)
    (previous converter : Converter) :
  let after := register_converter k converter self in
  converters after !! k = Some converter
  /\ (forall k', k' <> k -> converters after !! k' = converters self !! k')
  /\ register_converter k converter (register_converter k previous self)
     = after
  /\ commands after = commands self
  /\ error_handler after = error_handler self
  /\ (forall p, annotation_key p = k ->
        converter_note after p = " (Custom converter available)")
  /\ (forall p, annotation_key p <> k ->
        param_line after p = param_line self p).
Proof.
  intros after. subst after. unfold register_converter. simpl.
  split; [apply lookup_insert_eq|].
  split; [intros k' Hne; by rewrite lookup_insert_ne|].
  split; [by rewrite insert_insert_eq|].
  do 2 (split; [done|]).
  split.
  - intros p <-. unfold converter_note. simpl. by rewrite lookup_insert_eq.
  - intros p Hne. unfold param_line, converter_note. simpl.
    by rewrite lookup_insert_ne.
Qed.

End RegistrationProperties.

Section InvocationProperties.

Context `{D : Discord}.

Implicit Types (self : CommandCreator) (func : Func) (ctx : Ctx).
Implicit Types (params given optional : list Param) (bound : Dict.t).

(** *** Binding *)

Lemma bind_keywords_defaults optional :
  Forall has_default optional -> bind_keywords optional [] = Ok ([], []).
Proof.
  induction 1 as [|p ps [v Hv] _ IH]; simpl; [done|]. by rewrite Hv.
Qed.

Lemma sig_bind_positional given optional (vals : list PyVal) :
  length given = length vals ->
  Forall has_default optional ->
  sig_bind (given ++ optional) vals [] = Ok (zip (map p_name given) vals).
Proof.
  intros Hlen Hopt. revert given Hlen.
  induction vals as [|v vals IH]; intros [|p given] Hlen;
    try discriminate Hlen.
  - simpl. by rewrite (bind_keywords_defaults _ Hopt).
  - simpl. rewrite IH by (simpl in Hlen; lia). done.
Qed.

Lemma sig_bind_too_many params (vals : list PyVal) :
  length params < length vals ->
  sig_bind params vals [] = Raise (type_error "too many positional arguments").
Proof.
  revert params. induction vals as [|v vals IH]; intros params Hlen.
  - simpl in Hlen. lia.
  - destruct params as [|p params]; simpl; [done|].
    rewrite IH by (simpl in Hlen; lia). done.
Qed.

Lemma bind_keywords_missing optional (p : Param) (rest : list Param) :
  Forall has_default optional ->
  p_default p = None ->
  bind_keywords (optional ++ p :: rest) []
  = Raise (type_error
      ("missing a required argument: '" +:+ p_name p +:+ "'")).
Proof.
  intros Hopt Hp.
  induction Hopt as [|q qs [v Hv] _ IH]; simpl.
  - by rewrite Hp.
  - by rewrite Hv.
Qed.

Lemma sig_bind_missing given optional (p : Param) (rest : list Param)
    (vals : list PyVal) :
  length given = length vals ->
  Forall has_default optional ->
  p_default p = None ->
  sig_bind (given ++ optional ++ p :: rest) vals []
  = Raise (type_error
      ("missing a required argument: '" +:+ p_name p +:+ "'")).
Proof.
  intros Hlen Hopt Hp. revert given Hlen.
  induction vals as [|v vals IH]; intros [|q given] Hlen;
    try discriminate Hlen.
  - simpl. by rewrite (bind_keywords_missing _ _ _ Hopt Hp).
  - simpl. rewrite IH by (simpl in Hlen; lia). done.
Qed.

Lemma bound_value_here (k : string) (v : PyVal) bound (p : Param) :
  p_name p = k -> bound_value ((k, v) :: bound) p = Some v.
Proof.
  intros <-. unfold bound_value. simpl. by rewrite decide_True.
Qed.

Lemma bound_value_further (k : string) (v : PyVal) bound (p : Param) :
  p_name p <> k -> bound_value ((k, v) :: bound) p = bound_value bound p.
Proof.
  intros Hne. unfold bound_value. simpl. by rewrite decide_False.
Qed.

Lemma bound_value_cons_is_Some (k : string) (v : PyVal) bound (p : Param) :
  is_Some (bound_value bound p) ->
  is_Some (bound_value ((k, v) :: bound) p).
Proof.
  intros Hsome. destruct (decide (p_name p = k)) as [Heq|Hne].
  - rewrite bound_value_here by done. eauto.
  - by rewrite bound_value_further.
Qed.

Lemma bind_keywords_covers params (kwargs : Dict.t) bound (extra : Dict.t) :
  bind_keywords params kwargs = Ok (bound, extra) ->
  forall p, p ∈ params -> is_Some (bound_value bound p).
Proof.
  revert kwargs bound.
  induction params as [|q params IH]; intros kwargs bound; simpl.
  - intros _ p Hin. by apply elem_of_nil in Hin.
  - destruct (Dict.get kwargs (p_name q)) as [v|].
    + destruct (bind_keywords params (Dict.del kwargs (p_name q)))
        as [[bound' extra']|e] eqn:Hrec; simpl; [|discriminate].
      intros [= <- <-] p [->|Hin]%elem_of_cons.
      * rewrite bound_value_here by done. eauto.
      * apply bound_value_cons_is_Some. by eapply IH.
    + destruct (p_default q) as [d|] eqn:Hd; [|discriminate].
      intros Hrec p [->|Hin]%elem_of_cons; [|by eapply IH].
      unfold bound_value. rewrite Hd. by destruct (Dict.get bound (p_name q)).
Qed.

Lemma sig_bind_covers params (vals : list PyVal) (kwargs : Dict.t) bound :
  sig_bind params vals kwargs = Ok bound ->
  forall p, p ∈ params -> is_Some (bound_value bound p).
Proof.
  revert params bound.
  induction vals as [|v vals IH]; intros params bound.
  - rewrite sig_bind_no_args.
    destruct (bind_keywords params kwargs) as [[bound' extra]|e] eqn:Hkw;
      simpl; [|discriminate].
    destruct extra as [|[k x] extra]; [|discriminate].
    intros [= <-]. by eapply bind_keywords_covers.
  - destruct params as [|q params]; simpl; [discriminate|].
    destruct (Dict.mem kwargs (p_name q)); [discriminate|].
    destruct (sig_bind params vals kwargs) as [bound'|e] eqn:Hrec; simpl;
      [|discriminate].
    intros [= <-] p [->|Hin]%elem_of_cons.
    + rewrite bound_value_here by done. eauto.
    + apply bound_value_cons_is_Some. by eapply IH.
Qed.

(** *** Defaults and the call *)

Lemma get_apply_defaults_absent params bound (k : string) :
  k ∉ map p_name params -> Dict.get (apply_defaults params bound) k = None.
Proof.
  induction params as [|q params IH]; simpl; [done|].
  rewrite not_elem_of_cons. intros [Hne Hnot].
  destruct (Dict.get bound (p_name q)) as [v|]; [|destruct (p_default q)];
    simpl; rewrite ?decide_False by done; auto.
Qed.

Lemma get_apply_defaults params bound (p : Param) :
  NoDup (map p_name params) ->
  p ∈ params ->
  Dict.get (apply_defaults params bound) (p_name p) = bound_value bound p.
Proof.
  induction params as [|q params IH]; simpl.
  - intros _ Hin. by apply elem_of_nil in Hin.
  - rewrite NoDup_cons. intros [Hfresh Hnodup] [->|Hin]%elem_of_cons.
    + unfold bound_value.
      destruct (Dict.get bound (p_name q)) as [v|];
        [|destruct (p_default q)]; simpl; rewrite ?decide_True by done;
        try done.
      by apply get_apply_defaults_absent.
    + assert (p_name q <> p_name p) as Hne.
      { intros Heq. apply Hfresh. rewrite Heq.
        by apply (list_elem_of_fmap_2 p_name). }
      destruct (Dict.get bound (p_name q)) as [v|];
        [|destruct (p_default q)]; simpl; rewrite ?decide_False by done;
        auto.
Qed.

Lemma bound_args_values params (arguments : Dict.t)
    (value : Param -> option PyVal) :
  (forall p, p ∈ params -> Dict.get arguments (p_name p) = value p) ->
  (forall p, p ∈ params -> is_Some (value p)) ->
  bound_args params arguments = omap value params
  /\ bound_kwargs false params arguments = []
  /\ length (omap value params) = length params.
Proof.
  induction params as [|q params IH]; intros Hget Hsome; simpl; [done|].
  destruct (Hsome q) as [v Hv]; [by left|].
  rewrite (Hget q) by by left. rewrite Hv. simpl.
  destruct IH as (Hargs & Hkwargs & Hlen).
  - intros p Hin. apply Hget. by right.
  - intros p Hin. apply Hsome. by right.
  - change (list_omap Param PyVal value params) with (omap value params).
    by rewrite Hargs, Hkwargs, Hlen.
Qed.

Lemma try_body_class_keyed self func ctx (args : list PyVal)
    (kwargs : Dict.t) bound w :
  class_keyed self ->
  sig_bind (f_params func) (VCtx ctx :: args) kwargs = Ok bound ->
  try_body self func ctx args kwargs w
  = f_body func
      (bound_args (f_params func) (apply_defaults (f_params func) bound))
      (bound_kwargs false (f_params func)
         (apply_defaults (f_params func) bound)) w.
Proof.
  intros Hkeys Hbind. unfold try_body, bind, lift. rewrite Hbind.
  by rewrite apply_converters_class_keys.
Qed.

Lemma class_keyed_call self func ctx (args : list PyVal) (kwargs : Dict.t)
    bound w :
  class_keyed self ->
  NoDup (map p_name (f_params func)) ->
  sig_bind (f_params func) (VCtx ctx :: args) kwargs = Ok bound ->
  try_body self func ctx args kwargs w
  = f_body func (omap (bound_value bound) (f_params func)) [] w
  /\ length (omap (bound_value bound) (f_params func))
     = length (f_params func).
Proof.
  intros Hkeys Hnodup Hbind.
  rewrite (try_body_class_keyed _ _ _ _ _ _ _ Hkeys Hbind).
  destruct (bound_args_values (f_params func)
              (apply_defaults (f_params func) bound) (bound_value bound))
    as (-> & -> & Hlen); [| |done].
  - intros p Hin. by apply get_apply_defaults.
  - by eapply sig_bind_covers.
Qed.

(** X9.  For a command function declared with ordinary parameters only,
    of distinct names, and a converter table keyed by classes: a call whose
    arguments bind to the signature runs no converter.  The command
    function is called positionally, with one value per declared parameter
    in declaration order, each being the argument bound to the parameter
    or else its default, and with no keyword arguments; what it raises
    goes the way of the [try].  This holds of either wrapper when the
    call's keywords do not name the wrapper's own first parameter. *)
Theorem class_keyed_never_converts self func ctx (args : list PyVal)
    (kwargs : Dict.t) bound w :
  class_keyed self ->
  NoDup (map p_name (f_params func)) ->
  sig_bind (f_params func) (VCtx ctx :: args) kwargs = Ok bound ->
  let values := omap (bound_value bound) (f_params func) in
  let call :=
    try_except (f_body func values []) (fun e => _handle_error self e ctx) in
  length values = length (f_params func)
  /\ (Dict.mem kwargs "interaction" = false ->
      slash_call func self ctx args kwargs w = call w)
  /\ (Dict.mem kwargs "ctx" = false ->
      message_call func self ctx args kwargs w = call w).
Proof.
  intros Hkeys Hnodup Hbind values call.
  destruct (class_keyed_call self func ctx args kwargs bound w
              Hkeys Hnodup Hbind) as [Hcall Hlen].
  split; [done|].
  split; intros Hfree.
  - rewrite slash_call_bound by done.
    unfold slash_wrapper, call, try_except. by rewrite Hcall.
  - rewrite message_call_bound by done.
    unfold message_wrapper, call, try_except. by rewrite Hcall.
Qed.

(** *** Positional calls *)

Lemma get_zip_absent (names : list string) (vals : list PyVal) (k : string) :
  k ∉ names -> Dict.get (zip names vals) k = None.
Proof.
  revert vals.
  induction names as [|n names IH]; intros [|v vals]; simpl; try done.
  rewrite not_elem_of_cons. intros [Hne Hnot].
  rewrite decide_False by done. by apply IH.
Qed.

Lemma omap_bound_value_fresh (k : string) (v : PyVal) bound params :
  k ∉ map p_name params ->
  omap (bound_value ((k, v) :: bound)) params
  = omap (bound_value bound) params.
Proof.
  induction params as [|q params IH]; simpl; [done|].
  rewrite not_elem_of_cons. intros [Hne Hnot].
  rewrite bound_value_further by done.
  destruct (bound_value bound q); [f_equal|]; by apply IH.
Qed.

Lemma omap_bound_value_given given (vals : list PyVal) :
  NoDup (map p_name given) ->
  length given = length vals ->
  omap (bound_value (zip (map p_name given) vals)) given = vals.
Proof.
  revert vals.
  induction given as [|p given IH]; intros [|v vals]; simpl; try done.
  rewrite NoDup_cons. intros [Hfresh Hnodup] [= Hlen].
  rewrite bound_value_here by done. f_equal.
  rewrite <- (IH vals Hnodup Hlen) at 2.
  by apply omap_bound_value_fresh.
Qed.

Lemma omap_bound_value_optional (names : list string) (vals : list PyVal)
    optional :
  (forall q, q ∈ optional -> p_name q ∉ names) ->
  omap (bound_value (zip names vals)) optional = omap p_default optional.
Proof.
  induction optional as [|q optional IH]; intros Hfresh; simpl; [done|].
  unfold bound_value at 1. rewrite get_zip_absent by (apply Hfresh; by left).
  destruct (p_default q); [f_equal|]; apply IH;
    intros q' Hin; apply Hfresh; by right.
Qed.

Lemma try_except_body {A} (body body' : IO A) (handler : PyExc -> IO A) w :
  body w = body' w -> try_except body handler w = try_except body' handler w.
Proof. intros Heq. unfold try_except. by rewrite Heq. Qed.

(** X10.  For a command function declared with ordinary parameters only,
    of distinct names, and a converter table keyed by classes: a call
    without keywords that passes the parameters positionally and leaves
    out trailing parameters that have defaults reaches the command
    function as it was made, the context first, then the arguments in
    their order, then the defaults of the parameters left out, and no
    keyword arguments. *)
Theorem positional_call_passes_through self func ctx (args : list PyVal)
    given optional w :
  class_keyed self ->
  f_params func = (given ++ optional)%list ->
  NoDup (map p_name (f_params func)) ->
  length given = S (length args) ->
  Forall has_default optional ->
  let values := (VCtx ctx :: args ++ omap p_default optional)%list in
  let call :=
    try_except (f_body func values []) (fun e => _handle_error self e ctx) in
  length (omap p_default optional) = length optional
  /\ slash_call func self ctx args [] w = call w
  /\ message_call func self ctx args [] w = call w.
Proof.
  intros Hkeys Hparams Hnodup Hlen Hopt values call.
  assert (sig_bind (f_params func) (VCtx ctx :: args) []
          = Ok (zip (map p_name given) (VCtx ctx :: args))) as Hbind.
  { rewrite Hparams. by apply sig_bind_positional. }
  destruct (class_keyed_call self func ctx args [] _ w Hkeys Hnodup Hbind)
    as [Hcall _].
  assert (omap (bound_value (zip (map p_name given) (VCtx ctx :: args)))
            (f_params func) = values) as Hvalues.
  { rewrite Hparams in Hnodup |- *.
    rewrite map_app in Hnodup. apply NoDup_app in Hnodup as (Hg & Hsep & _).
    rewrite omap_app, omap_bound_value_given by done.
    rewrite omap_bound_value_optional; [done|].
    intros q Hq Hin. apply (Hsep _ Hin).
    by apply (list_elem_of_fmap_2 p_name). }
  rewrite Hvalues in Hcall.
  split.
  - clear -Hopt. induction Hopt as [|q qs [v Hv] _ IH]; simpl; [done|].
    rewrite Hv. simpl. by f_equal.
  - rewrite slash_call_bound, message_call_bound by reflexivity.
    unfold slash_wrapper, message_wrapper, call.
    split; by apply try_except_body.
Qed.

Lemma calls_on_bind_failure self func ctx (args : list PyVal)
    (msg : string) w :
  sig_bind (f_params func) (VCtx ctx :: args) [] = Raise (type_error msg) ->
  slash_call func self ctx args [] w
  = _handle_error self (type_error msg) ctx w
  /\ message_call func self ctx args [] w
     = _handle_error self (type_error msg) ctx w.
Proof.
  intros Hbind.
  rewrite slash_call_bound, message_call_bound by reflexivity.
  unfold slash_wrapper, message_wrapper.
  by rewrite (try_except_raise _ _ (type_error msg) w w
                (try_body_bind_fails _ _ _ _ _ _ w Hbind) eq_refl).
Qed.

(** X11.  For a command function declared with ordinary parameters only: a
    call without keywords that has as many arguments as the function has
    parameters, or more, never runs the function.  The context takes the
    first parameter, so one argument is too many, and the error policy is
    given the [TypeError] "too many positional arguments".  In particular
    a function declared without parameters cannot be invoked. *)
Theorem surplus_arguments_rejected self func ctx (args : list PyVal) w :
  length (f_params func) <= length args ->
  slash_call func self ctx args [] w
  = _handle_error self (type_error "too many positional arguments") ctx w
  /\ message_call func self ctx args [] w
     = _handle_error self (type_error "too many positional arguments") ctx w.
Proof.
  intros Hlen. apply calls_on_bind_failure.
  apply sig_bind_too_many. simpl. lia.
Qed.

(** X12.  For a command function declared with ordinary parameters only: a
    call without keywords whose arguments end just before a parameter
    without default never runs the function, and the error policy is given
    the [TypeError] that names this parameter. *)
Theorem missing_argument_reported self func ctx (args : list PyVal)
    given (p : Param) (rest : list Param) w :
  f_params func = (given ++ p :: rest)%list ->
  length given = S (length args) ->
  p_default p = None ->
  let error :=
    type_error ("missing a required argument: '" +:+ p_name p +:+ "'") in
  slash_call func self ctx args [] w = _handle_error self error ctx w
  /\ message_call func self ctx args [] w = _handle_error self error ctx w.
Proof.
  intros Hparams Hlen Hp error. apply calls_on_bind_failure.
  rewrite Hparams.
  by apply (sig_bind_missing given [] p rest (VCtx ctx :: args)).
Qed.

End InvocationProperties.

(** ** The further properties on the simulated platforms *)

Lemma doubling_creator_class_keyed :
  class_keyed (D := Sim.platform) Sim.doubling_creator.
Proof.
  intros s. unfold Sim.doubling_creator, register_converter. simpl.
  rewrite lookup_insert_ne by discriminate. apply lookup_empty.
Qed.

Lemma ctx_a_b_distinct : NoDup (map p_name Sim.ctx_a_b).
Proof. apply (bool_decide_unpack _). vm_compute. exact I. Qed.

Lemma greet_params_distinct : NoDup (map p_name Demo.greet_params).
Proof. apply (bool_decide_unpack _). vm_compute. exact I. Qed.

(** Witness of X2: the message command "add" was registered with the description
    "old". *)
Lemma help_description_line_witness :
  "Description: old"
  ∈ help_message (D := Sim.platform) Sim.with_sum "add"
      (mkCommand Message (Some ["sum"]) (Some "old") Sim.spy).
Proof.
  apply (proj2 (proj2 (help_description_line (D := Sim.platform)
                         Sim.with_sum "add"
                         (mkCommand Message (Some ["sum"]) (Some "old")
                            Sim.spy)))
           "old" eq_refl).
  discriminate.
Defined.

(** Witness of X3: the message command "greet" has the aliases "hi" and "hey" and
    no description. *)
Lemma help_aliases_line_witness :
  exists line,
    line ∈ help_message (D := Sim.platform) Demo.with_greet "greet"
             (mkCommand Message (Some ["hi"; "hey"]) None Demo.greet)
    /\ String.prefix "Aliases: " line = true.
Proof.
  apply (proj1 (help_aliases_line (D := Sim.platform) Demo.with_greet "greet"
                  (mkCommand Message (Some ["hi"; "hey"]) None Demo.greet))).
  split; [reflexivity|]. by exists "hi", ["hey"].
Defined.

(** Witness of X5: "add" is registered a second time on the platform that refuses
    a name twice. *)
Lemma rejected_registration_keeps_commands_witness :
  fst (tree_command (Discord := Strict.platform) "add" "Again"
         (tree Strict.with_add))
  = Raise (mkExc (UserError "CommandAlreadyRegistered")
             "Command 'add' already registered.")
  /\ commands (snd (decorate (D := Strict.platform)
                      (slash_command "add" (Some "Again")) Strict.noop
                      Strict.with_add))
     = commands Strict.with_add.
Proof.
  split; [reflexivity|].
  refine (proj2 (proj1 (rejected_registration_keeps_commands
                          (D := Strict.platform) Strict.with_add "add"
                          Strict.noop _)
                   "Again" _ eq_refl)).
  discriminate.
Defined.

(** Witness of X6: the slash command "add" registered over the message command
    of that name; its function has the signature
    [(ctx, command_name: str = None)]. *)
Lemma slash_registration_help_witness :
  decorate (D := Sim.platform) (slash_command "add" (Some "new"))
    Sim.help_func Sim.with_sum
  = (Ok (slash_wrapper Sim.help_func), Sim.with_sum_again)
  /\ exists d,
       Some "new" = Some d /\ d <> ""
       /\ generate_help (D := Sim.platform) Sim.with_sum_again "add"
          = join NL (["**" +:+ "add" +:+ "**";
                      "Type: Slash Command";
                      "Description: " +:+ d]
                     ++ argument_lines Sim.with_sum Sim.help_params)%list.
Proof.
  split; [reflexivity|].
  exact (slash_registration_help (D := Sim.platform) Sim.with_sum
           Sim.with_sum_again "add" (Some "new") Sim.help_func
           (slash_wrapper Sim.help_func) eq_refl).
Defined.

(** Witness of X7: the message command "greet" with two aliases and no
    description. *)
Lemma message_registration_help_witness :
  decorate (D := Sim.platform)
    (message_command "greet" (Some ["hi"; "hey"]) None) Demo.greet
    Sim.doubling_creator
  = (Ok (message_wrapper Demo.greet), Demo.with_greet)
  /\ generate_help (D := Sim.platform) Demo.with_greet "greet"
     = join NL (["**" +:+ "greet" +:+ "**"; "Type: Message Command"]
                ++ []
                ++ ["Aliases: " +:+ join ", " ["hi"; "hey"]]
                ++ argument_lines Sim.doubling_creator Demo.greet_params)%list.
Proof.
  split; [reflexivity|].
  exact (message_registration_help (D := Sim.platform) Sim.doubling_creator
           Demo.with_greet "greet" (Some ["hi"; "hey"]) None Demo.greet
           (message_wrapper Demo.greet) eq_refl).
Defined.

(** Witness of X9: the doubling converter for [int] and the call
    [(ctx, 3, 4)] of the message wrapper. *)
Lemma class_keyed_never_converts_witness :
  sig_bind Sim.ctx_a_b [VCtx (Context 1); VInt 3; VInt 4] []
  = Ok [("ctx", VCtx (Context 1)); ("a", VInt 3); ("b", VInt 4)]
  /\ message_call (D := Sim.platform) Sim.spy Sim.doubling_creator
       (Context 1) [VInt 3; VInt 4] [] Sim.empty_world
     = try_except
         (f_body Sim.spy [VCtx (Context 1); VInt 3; VInt 4] [])
         (fun e => _handle_error Sim.doubling_creator e (Context 1))
         Sim.empty_world.
Proof.
  split; [reflexivity|].
  exact (proj2 (proj2 (class_keyed_never_converts (D := Sim.platform)
                         Sim.doubling_creator Sim.spy (Context 1)
                         [VInt 3; VInt 4] [] _ Sim.empty_world
                         doubling_creator_class_keyed ctx_a_b_distinct
                         eq_refl))
           eq_refl).
Defined.

(** Witness of X10: [greet(ctx, "Ann")] receives the default greeting. *)
Lemma positional_call_passes_through_witness :
  slash_call (D := Sim.platform) Demo.greet Sim.doubling_creator
    (Interaction 1) [VStr "Ann"] [] Sim.empty_world
  = try_except
      (f_body Demo.greet [VCtx (Interaction 1); VStr "Ann"; VStr "hello"] [])
      (fun e => _handle_error Sim.doubling_creator e (Interaction 1))
      Sim.empty_world.
Proof.
  refine (proj1 (proj2 (positional_call_passes_through (D := Sim.platform)
                   Sim.doubling_creator Demo.greet (Interaction 1)
                   [VStr "Ann"]
                   [mkParam "ctx" None None; mkParam "name" (Some TStr) None]
                   [mkParam "greeting" (Some TStr) (Some (VStr "hello"))]
                   Sim.empty_world doubling_creator_class_keyed eq_refl
                   greet_params_distinct eq_refl _))).
  apply Forall_cons. split; [by exists (VStr "hello")|apply Forall_nil_2].
Defined.

(** Witness of X11: three arguments for the two parameters after the
    context. *)
Lemma surplus_arguments_rejected_witness :
  slash_call (D := Sim.platform) Sim.spy Sim.creator (Interaction 1)
    [VInt 1; VInt 2; VInt 3] [] Sim.empty_world
  = (Ok tt,
     Sim.mkWorld [1%N]
       [(Interaction 1, "Error: too many positional arguments")] []).
Proof.
  rewrite (proj1 (surplus_arguments_rejected (D := Sim.platform) Sim.creator
                    Sim.spy (Interaction 1) [VInt 1; VInt 2; VInt 3]
                    Sim.empty_world (le_n 3))).
  reflexivity.
Defined.

(** Witness of X12: one argument for the two parameters after the
    context. *)
Lemma missing_argument_reported_witness :
  message_call (D := Sim.platform) Sim.spy Sim.creator (Context 5)
    [VInt 3] [] Sim.empty_world
  = (Ok tt,
     Sim.mkWorld []
       [(Context 5, "Error: missing a required argument: 'b'")] []).
Proof.
  rewrite (proj2 (missing_argument_reported (D := Sim.platform) Sim.creator
                    Sim.spy (Context 5) [VInt 3]
                    [mkParam "ctx" None None; mkParam "a" (Some TInt) None]
                    (mkParam "b" (Some TInt) None) [] Sim.empty_world
                    eq_refl eq_refl eq_refl)).
  reflexivity.
Defined.
